(** * Strix: the secret updater and the chat-completions URL helper

    A shallow embedding of

    - [strix/runtime/remote_tool_server/update_secret.py]
      ([encrypt_secret_with_public_key], [update_secret], [main]);
    - [tests/test_discord_bot_fixes.py] ([get_chat_completions_url]).

    Python [str] values are represented by their UTF-8 encoding as Rocq
    [string]s (so [s.encode('utf-8')] is the list of the bytes of [s]; a
    [str] with a lone surrogate has no such encoding and is outside the
    model); Python [int]s are [Z].  Python exceptions are values of [exc]
    and a computation that may raise is a value of the monad [Py.M], which
    also records, in order, what the computation does to the outside world:
    the lines it prints and the HTTP requests it issues.  Everything the
    program does not contain (the remote API behind [requests], [base64],
    PyNaCl and its random numbers) is a field of [Py.World]. *)

From Stdlib Require Import ZArith List String Ascii Bool Lia.
From Stdlib Require Import DecimalString DecimalPos DecimalZ.
Import ListNotations.

Local Open Scope string_scope.
Local Open Scope Z_scope.

(* ------------------------------------------------------------------ *)
(** ** Python strings *)

Module PyStr.

(** [c in chars] *)
Fixpoint mem (c : ascii) (chars : string) : bool :=
  match chars with
  | EmptyString => false
  | String d chars' => Ascii.eqb c d || mem c chars'
  end.

(** [s.rstrip(chars)]: [s] without its longest suffix made of
    characters of [chars]. *)
Fixpoint rstrip (chars : string) (s : string) : string :=
  match s with
  | EmptyString => EmptyString
  | String a s' =>
      match rstrip chars s' with
      | EmptyString => if mem a chars then EmptyString else String a EmptyString
      | r => String a r
      end
  end.

(** [s.endswith(suffix)]: the slice [s[len(s)-len(suffix):]] is compared
    with [suffix], and a suffix longer than [s] never matches. *)
Definition endswith (s suffix : string) : bool :=
  (String.length suffix <=? String.length s)%nat
  && String.eqb
       (substring (String.length s - String.length suffix)
                  (String.length suffix) s)
       suffix.

(** [s[:-1]] *)
Definition drop_last (s : string) : string :=
  substring 0 (String.length s - 1) s.

(** [str(n)] for an [int] *)
Definition str_of_int (n : Z) : string :=
  NilZero.string_of_int (Z.to_int n).

(** [c * n], for a one-character string [c] *)
Fixpoint replicate (n : nat) (c : ascii) : string :=
  match n with
  | O => EmptyString
  | S n' => String c (replicate n' c)
  end.

End PyStr.

(* ------------------------------------------------------------------ *)
(** ** JSON values, as [response.json()] returns them *)

Module Json.

#[warnings="-register-all"]
Inductive t : Type :=
| JNull
| JBool (b : bool)
| JInt (n : Z)
| JFloat (literal : string)
| JStr (s : string)
| JList (items : list t)
| JDict (entries : list (string * t)).

(** Lookup in a [dict] with [str] keys. *)
Fixpoint lookup (k : string) (entries : list (string * t)) : option t :=
  match entries with
  | [] => None
  | (k', v) :: rest => if String.eqb k k' then Some v else lookup k rest
  end.

(** [k in v] for a JSON object [v]; no other JSON value has fields. *)
Definition has_field (v : t) (k : string) : bool :=
  match v with
  | JDict d => match lookup k d with Some _ => true | None => false end
  | _ => false
  end.

End Json.

(* ------------------------------------------------------------------ *)
(** ** Exceptions, outcomes and the effect monad *)

Module Py.
Import Json.

(** An exception object: the names of the classes of its type's method
    resolution order (what [except C] and [isinstance] look at), its
    [str(e)], and the [code] attribute of a [SystemExit]. *)
Record exc : Type := mk_exc {
  exc_mro : list string;
  exc_str : string;
  exc_code : option Z
}.

Definition isinstance (e : exc) (cls : string) : bool :=
  existsb (String.eqb cls) (exc_mro e).

Definition Exception := "Exception".
Definition ImportError := "ImportError".
Definition KeyError := "KeyError".
Definition RequestException := "requests.exceptions.RequestException".

Definition KeyError_ (msg : string) : exc :=
  mk_exc ["KeyError"; "LookupError"; "Exception"; "BaseException"] msg None.
Definition IndexError_ (msg : string) : exc :=
  mk_exc ["IndexError"; "LookupError"; "Exception"; "BaseException"] msg None.
Definition TypeError_ (msg : string) : exc :=
  mk_exc ["TypeError"; "Exception"; "BaseException"] msg None.
Definition ValueError_ (msg : string) : exc :=
  mk_exc ["ValueError"; "Exception"; "BaseException"] msg None.
Definition ModuleNotFoundError_ (msg : string) : exc :=
  mk_exc ["ModuleNotFoundError"; "ImportError"; "Exception"; "BaseException"]
         msg None.
Definition ConnectTimeout_ (msg : string) : exc :=
  mk_exc ["requests.exceptions.ConnectTimeout";
          "requests.exceptions.ConnectionError";
          "requests.exceptions.Timeout";
          "requests.exceptions.RequestException";
          "OSError"; "Exception"; "BaseException"] msg None.
Definition KeyboardInterrupt_ : exc :=
  mk_exc ["KeyboardInterrupt"; "BaseException"] "" None.
Definition SystemExit_ (code : Z) : exc :=
  mk_exc ["SystemExit"; "BaseException"] (PyStr.str_of_int code) (Some code).

Inductive outcome (A : Type) : Type :=
| Returned (a : A)
| Raised (e : exc).
Arguments Returned {A} a.
Arguments Raised {A} e.

Definition headers := list (string * string).

(** What the program does to the outside world. *)
Inductive event : Type :=
| EvPrint (line : string)
| EvGet (url : string) (h : headers)
| EvPut (url : string) (h : headers) (body : Json.t).

Definition is_put (ev : event) : bool :=
  match ev with EvPut _ _ _ => true | _ => false end.

(** The PUT requests of a trace. *)
Definition puts (tr : list event) : list event := filter is_put tr.

(** A computation: the events it performed, in order, and how it ended. *)
Definition M (A : Type) : Type := (list event * outcome A)%type.

Definition ret {A} (a : A) : M A := ([], Returned a).
Definition raise {A} (e : exc) : M A := ([], Raised e).
Definition lift {A} (o : outcome A) : M A := ([], o).
Definition emit (ev : event) : M unit := ([ev], Returned tt).

Definition bind {A B} (m : M A) (k : A -> M B) : M B :=
  match m with
  | (tr, Returned a) => let (tr', o) := k a in ((tr ++ tr')%list, o)
  | (tr, Raised e) => (tr, Raised e)
  end.

(** [print(line)]; writing to the standard output is taken to succeed. *)
Definition print (line : string) : M unit := emit (EvPrint line).

(** The first [except cls as e] clause whose class [e] is an instance of. *)
Fixpoint find_handler {A} (e : exc) (clauses : list (string * (exc -> M A)))
  : option (exc -> M A) :=
  match clauses with
  | [] => None
  | (cls, h) :: rest => if isinstance e cls then Some h else find_handler e rest
  end.

(** [try: body  except C1 as e: h1  except C2 as e: h2 ...]: an exception
    no clause matches propagates. *)
Definition try_except {A} (body : M A) (clauses : list (string * (exc -> M A)))
  : M A :=
  match body with
  | (tr, Returned a) => (tr, Returned a)
  | (tr, Raised e) =>
      match find_handler e clauses with
      | Some h => let (tr', o) := h e in ((tr ++ tr')%list, o)
      | None => (tr, Raised e)
      end
  end.

(** An HTTP response of [requests]: [status_code], [text], and what
    [response.json()] does. *)
Record Response : Type := mk_response {
  status_code : Z;
  text : string;
  json : outcome Json.t
}.

(** [nacl.public], once imported: [PublicKey(bs)], and
    [SealedBox(pk).encrypt(plaintext)]. *)
Record Nacl : Type := mk_nacl {
  PublicKey : list Byte.byte -> outcome (list Byte.byte);
  SealedBox_encrypt : list Byte.byte -> list Byte.byte -> outcome (list Byte.byte)
}.

(** Everything outside the program during one run: the remote API as
    [requests] shows it, the [base64] module, and whether PyNaCl can be
    imported.  [SealedBox_encrypt] is the outcome of this run's call, its
    fresh ephemeral key included. *)
Record World : Type := mk_world {
  requests_get : string -> headers -> outcome Response;
  requests_put : string -> headers -> Json.t -> outcome Response;
  import_nacl : outcome Nacl;
  base64_b64decode : string -> outcome (list Byte.byte);
  base64_b64encode : list Byte.byte -> string
}.

(** [type(v).__name__] *)
Definition type_name (v : Json.t) : string :=
  match v with
  | JNull => "NoneType"
  | JBool _ => "bool"
  | JInt _ => "int"
  | JFloat _ => "float"
  | JStr _ => "str"
  | JList _ => "list"
  | JDict _ => "dict"
  end.

(** [v[k]] for a JSON value [v] and a [str] key [k]: a [dict] is looked
    up, and [str(KeyError(k))] is [repr(k)]; a [list] or a [str] takes no
    [str] index; nothing else can be subscripted.  The wording of the
    [TypeError]s is CPython 3.11's. *)
Definition getitem (v : Json.t) (k : string) : outcome Json.t :=
  match v with
  | JDict d =>
      match lookup k d with
      | Some x => Returned x
      | None => Raised (KeyError_ ("'" ++ k ++ "'"))
      end
  | JList _ =>
      Raised (TypeError_ "list indices must be integers or slices, not str")
  | JStr _ => Raised (TypeError_ "string indices must be integers, not 'str'")
  | _ => Raised (TypeError_ ("'" ++ type_name v ++ "' object is not subscriptable"))
  end.

(** [base64.b64decode(v)]: only a [str] (or bytes) can be decoded. *)
Definition b64decode (w : World) (v : Json.t) : outcome (list Byte.byte) :=
  match v with
  | JStr s => base64_b64decode w s
  | _ =>
      Raised (TypeError_ ("argument should be a bytes-like object or ASCII string, not '"
                            ++ type_name v ++ "'"))
  end.

(** [argv[i]] *)
Definition argv_get (argv : list string) (i : nat) : outcome string :=
  match nth_error argv i with
  | Some s => Returned s
  | None => Raised (IndexError_ "list index out of range")
  end.

(** [sys.exit(code)] raises [SystemExit(code)]. *)
Definition sys_exit {A} (code : Z) : M A := raise (SystemExit_ code).

(** The exit status of the process whose main program ended with [o];
    [None] stands for the traceback of an exception nobody caught. *)
Definition exit_status (o : outcome unit) : option Z :=
  match o with
  | Returned _ => Some 0
  | Raised e =>
      if isinstance e "SystemExit" then exc_code e else None
  end.

Declare Scope py_scope.
Delimit Scope py_scope with py.
Notation "x <- m ;; k" := (bind m (fun x => k))
  (at level 61, m at next level, right associativity) : py_scope.
Notation "m ;; k" := (bind m (fun _ => k))
  (at level 61, right associativity) : py_scope.

End Py.

(* ------------------------------------------------------------------ *)
(** ** strix/runtime/remote_tool_server/update_secret.py *)

Module UpdateSecret.
Import Json Py PyStr.
Local Open Scope py_scope.

Definition msg_nacl_missing : string :=
  "⚠️ PyNaCl not available, using original encrypted value".
Definition msg_get_failed (status : Z) (body : string) : string :=
  "❌ Failed to get public key: " ++ str_of_int status ++ " - " ++ body.
Definition msg_put_ok (secret_name : string) : string :=
  "✅ Secret '" ++ secret_name ++ "' updated successfully using SERVER_TOKEN".
Definition msg_put_failed (status : Z) (body : string) : string :=
  "❌ Failed to update secret: " ++ str_of_int status ++ " - " ++ body.
Definition msg_put_hint : string :=
  "💡 The SERVER_TOKEN might not have the right permissions or the encrypted value format might be incorrect.".
Definition msg_request_error (e : exc) : string :=
  "❌ Request error: " ++ exc_str e.
Definition msg_missing_key (e : exc) : string :=
  "❌ Missing key in response: " ++ exc_str e.
Definition msg_unexpected (e : exc) : string :=
  "❌ Unexpected error: " ++ exc_str e.
Definition msg_usage : string :=
  "Usage: python -m strix.runtime.remote_tool_server.update_secret <server_token> <owner> <repo> <secret_name> <secret_value>".

(** Lines 32-47 and 103-114: decode the key, build the sealed box, encrypt
    the UTF-8 bytes of the value, and base64-encode the result. *)
Definition seal_with (w : World) (nacl : Nacl) (secret_value : string)
           (public_key : Json.t) : M string :=
  public_key_bytes <- lift (b64decode w public_key) ;;
  github_public_key <- lift (PublicKey nacl public_key_bytes) ;;
  encrypted_data <-
    lift (SealedBox_encrypt nacl github_public_key
                            (list_byte_of_string secret_value)) ;;
  ret (base64_b64encode w encrypted_data).

(** [encrypt_secret_with_public_key], lines 15-52. *)
Definition encrypt_secret_with_public_key (w : World)
           (secret_value public_key_raw : string) : M string :=
  try_except
    (nacl <- lift (import_nacl w) ;;
     seal_with w nacl secret_value (JStr public_key_raw))
    [(ImportError, fun _ => print msg_nacl_missing ;; ret secret_value)].

Definition request_headers (server_token : string) : headers :=
  [("Authorization", "Bearer " ++ server_token);
   ("Accept", "application/vnd.github.v3+json");
   ("User-Agent", "Strix-Secret-Updater")].

Definition pub_key_url (owner repo : string) : string :=
  "https://api.github.com/repos/" ++ owner ++ "/" ++ repo
    ++ "/actions/secrets/public-key".

Definition secret_url (owner repo secret_name : string) : string :=
  "https://api.github.com/repos/" ++ owner ++ "/" ++ repo
    ++ "/actions/secrets/" ++ secret_name.

Definition make_payload (final_encrypted_value : string) (key_id : Json.t)
  : Json.t :=
  JDict [("encrypted_value", JStr final_encrypted_value); ("key_id", key_id)].

(** [requests.get(url, headers=h)] and [requests.put(url, headers=h,
    json=body)]: the call is made, then the world answers. *)
Definition http_get (w : World) (url : string) (h : headers) : M Response :=
  emit (EvGet url h) ;; lift (requests_get w url h).
Definition http_put (w : World) (url : string) (h : headers) (body : Json.t)
  : M Response :=
  emit (EvPut url h body) ;; lift (requests_put w url h body).

(** The body of the outer [try] of [update_secret], lines 87-136. *)
Definition update_secret_body (w : World)
           (server_token owner repo secret_name secret_value : string)
  : M bool :=
  let h := request_headers server_token in
  response <- http_get w (pub_key_url owner repo) h ;;
  if negb (status_code response =? 200) then
    print (msg_get_failed (status_code response) (text response)) ;;
    ret false
  else
    pub_key_data <- lift (json response) ;;
    key_id <- lift (getitem pub_key_data "key_id") ;;
    public_key <- lift (getitem pub_key_data "key") ;;
    final_encrypted_value <-
      try_except
        (nacl <- lift (import_nacl w) ;;
         seal_with w nacl secret_value public_key)
        [(ImportError, fun _ => print msg_nacl_missing ;; ret secret_value)] ;;
    response <- http_put w (secret_url owner repo secret_name) h
                         (make_payload final_encrypted_value key_id) ;;
    if (status_code response =? 201) || (status_code response =? 204) then
      print (msg_put_ok secret_name) ;;
      ret true
    else
      print (msg_put_failed (status_code response) (text response)) ;;
      print msg_put_hint ;;
      ret false.

(** The [except] clauses of the outer [try], lines 138-146. *)
Definition update_secret_handlers : list (string * (exc -> M bool)) :=
  [(RequestException, fun e => print (msg_request_error e) ;; ret false);
   (KeyError, fun e => print (msg_missing_key e) ;; ret false);
   (Exception, fun e => print (msg_unexpected e) ;; ret false)].

(** [update_secret], lines 55-146. *)
Definition update_secret (w : World)
           (server_token owner repo secret_name secret_value : string)
  : M bool :=
  try_except
    (update_secret_body w server_token owner repo secret_name secret_value)
    update_secret_handlers.

(** [main], lines 149-162, run with [sys.argv = argv]. *)
Definition main (w : World) (argv : list string) : M unit :=
  if negb (Nat.eqb (List.length argv) 6) then
    print msg_usage ;;
    sys_exit 1
  else
    server_token <- lift (argv_get argv 1) ;;
    owner <- lift (argv_get argv 2) ;;
    repo <- lift (argv_get argv 3) ;;
    secret_name <- lift (argv_get argv 4) ;;
    secret_value <- lift (argv_get argv 5) ;;
    success <- update_secret w server_token owner repo secret_name secret_value ;;
    sys_exit (if success then 0 else 1).

End UpdateSecret.

(* ------------------------------------------------------------------ *)
(** ** tests/test_discord_bot_fixes.py *)

Module DiscordBotFixes.
Import PyStr.

(** [get_chat_completions_url], lines 15-33. *)
Definition get_chat_completions_url (base_endpoint : string) : string :=
  let base := rstrip "/" base_endpoint in
  if endswith base "/chat/completions" then base
  else if endswith base "/v1" then base ++ "/chat/completions"
  else base ++ "/v1/chat/completions".

(** The normalizer as the specification words it: "trimming one trailing
    slash", then the same three cases. *)
Definition spec_trim_one_slash (s : string) : string :=
  if endswith s "/" then drop_last s else s.

Definition spec_chat_completions_url (base_endpoint : string) : string :=
  let base := spec_trim_one_slash base_endpoint in
  if endswith base "/chat/completions" then base
  else if endswith base "/v1" then base ++ "/chat/completions"
  else base ++ "/v1/chat/completions".

End DiscordBotFixes.

(* ------------------------------------------------------------------ *)
(** ** Reading a run of [update_secret] *)

Module Runs.
Import Json Py PyStr UpdateSecret.

(** The five places where [update_secret] reports a failure and returns
    [False], each with what it prints. *)
Inductive failure_reason : Type :=
| GetFailed (status : Z) (body : string)
| RequestError (e : exc)
| MissingKey (e : exc)
| Unexpected (e : exc)
| PutFailed (status : Z) (body : string).

Definition diagnostic (r : failure_reason) : string :=
  match r with
  | GetFailed status body => msg_get_failed status body
  | RequestError e => msg_request_error e
  | MissingKey e => msg_missing_key e
  | Unexpected e => msg_unexpected e
  | PutFailed status body => msg_put_failed status body
  end.

(** An outcome that is a value or an instance of [Exception]: what
    [except Exception] stops.  [KeyboardInterrupt] and [SystemExit] are not. *)
Definition benign {A} (o : outcome A) : Prop :=
  match o with
  | Returned _ => True
  | Raised e => isinstance e Exception = true
  end.

(** A world none of whose calls raises outside [Exception]. *)
Definition raises_only_exceptions (w : World) : Prop :=
  (forall url h, benign (requests_get w url h))
  /\ (forall url h r, requests_get w url h = Returned r -> benign (json r))
  /\ (forall url h body, benign (requests_put w url h body))
  /\ benign (import_nacl w)
  /\ (forall nacl, import_nacl w = Returned nacl ->
        (forall bs, benign (PublicKey nacl bs))
        /\ (forall pk pt, benign (SealedBox_encrypt nacl pk pt)))
  /\ (forall s, benign (base64_b64decode w s)).


(** The trace sends [v] as the [encrypted_value] of a PUT. *)
Definition transmits (v : string) (ev : event) : bool :=
  match ev with
  | EvPut _ _ (JDict d) =>
      match lookup "encrypted_value" d with
      | Some (JStr x) => String.eqb x v
      | _ => false
      end
  | _ => false
  end.

End Runs.

(* ------------------------------------------------------------------ *)
(** ** The failure kinds of the specification *)

Module Spec.

(** The taxonomy the specification asks of a rewrite; the source has no
    such type. *)
Inductive failure_kind : Type :=
| AuthError
| NotFoundError
| RateLimitError
| ServerError
| NetworkError
| EncryptionUnavailable
| ProtocolError.

End Spec.

(* ------------------------------------------------------------------ *)
(** ** Example worlds *)

Module Scenarios.
Import Json Py PyStr UpdateSecret.

(** Stand-ins for the libraries in the example worlds (the theorems
    quantify over every world): a coding of bytes as text that is the
    identity, PyNaCl's length check of a public key, and a sealed box that
    puts the key in front of the plaintext. *)
Definition sample_nacl : Nacl :=
  {| PublicKey := fun bs =>
       if Nat.eqb (List.length bs) 32 then Returned bs
       else Raised (ValueError_ "The public key must be exactly 32 bytes long");
     SealedBox_encrypt := fun pk pt => Returned (pk ++ pt)%list |}.

Definition sample_key : string := "0123456789abcdef0123456789abcdef".

(** [s] between double quotes, as in a JSON text. *)
Definition quoted (s : string) : string :=
  String (ascii_of_nat 34) s ++ String (ascii_of_nat 34) EmptyString.

Definition key_response : Response :=
  {| status_code := 200;
     text := "{" ++ quoted "key_id" ++ ": " ++ quoted "42" ++ ", "
               ++ quoted "key" ++ ": " ++ quoted sample_key ++ "}";
     json := Returned (JDict [("key_id", JStr "42"); ("key", JStr sample_key)]) |}.

Definition response (status : Z) (body : string) (v : Json.t) : Response :=
  {| status_code := status; text := body; json := Returned v |}.

Definition world (get : outcome Response) (nacl : outcome Nacl)
           (put : outcome Response) : World :=
  {| requests_get := fun _ _ => get;
     requests_put := fun _ _ _ => put;
     import_nacl := nacl;
     base64_b64decode := fun s => Returned (list_byte_of_string s);
     base64_b64encode := string_of_list_byte |}.

Definition no_nacl : outcome Nacl :=
  Raised (ModuleNotFoundError_ "No module named 'nacl'").

(** Scenario 1: key fetched, value sealed, submission answers 204. *)
Definition world_updated : World :=
  world (Returned key_response) (Returned sample_nacl)
        (Returned (response 204 "" JNull)).

(** PyNaCl is not installed; the remote API answers as in scenario 1. *)
Definition world_no_nacl : World :=
  world (Returned key_response) no_nacl (Returned (response 204 "" JNull)).

(** The key fetch answers [status]. *)
Definition world_get_status (status : Z) (body : string) : World :=
  world (Returned (response status body JNull)) (Returned sample_nacl)
        (Returned (response 204 "" JNull)).


(** Scenario 3: the submission answers [status]. *)
Definition world_put_status (status : Z) (body : string) : World :=
  world (Returned key_response) (Returned sample_nacl)
        (Returned (response status body JNull)).

(** The key fetch answers 200 with a JSON object that has no [key]. *)
Definition world_missing_key : World :=
  world (Returned (response 200 ("{" ++ quoted "key_id" ++ ": " ++ quoted "42" ++ "}")
                            (JDict [("key_id", JStr "42")])))
        (Returned sample_nacl) (Returned (response 204 "" JNull)).

End Scenarios.

(* ------------------------------------------------------------------ *)
(** ** tests/test_discord_bot_fixes.py: the URLs of the readiness check *)

Module ApiReadiness.
Import PyStr.

(** [s[:-3]] *)
Definition drop_last3 (s : string) : string :=
  substring 0 (String.length s - 3) s.

(** Lines 94-101: the list that
    [test_construct_models_url_from_v1_endpoint] builds, as a function of
    its local [base_endpoint]. *)
Definition urls_to_check_v1 (base_endpoint : string) : list string :=
  let base := rstrip "/" base_endpoint in
  if endswith base "/v1" then
    let base_url := drop_last3 base in
    [base ++ "/models"; base_url ++ "/health"; base_url]
  else [].

(** Lines 112-121: the list that
    [test_construct_models_url_from_base_endpoint] builds, as a function of
    its local [base_endpoint]. *)
Definition urls_to_check (base_endpoint : string) : list string :=
  let base := rstrip "/" base_endpoint in
  if endswith base "/v1" then [base ++ "/models"]
  else [base ++ "/v1/models"; base ++ "/models"; base ++ "/health"; base].

(** [a == b] for lists of [str] *)
Fixpoint list_eqb (a b : list string) : bool :=
  match a, b with
  | [], [] => true
  | x :: a', y :: b' => String.eqb x y && list_eqb a' b'
  | _, _ => false
  end.

(** The assertion of [test_construct_models_url_from_v1_endpoint],
    lines 93-107. *)
Definition test_construct_models_url_from_v1_endpoint : bool :=
  list_eqb (urls_to_check_v1 "http://127.0.0.1:8317/v1")
           ["http://127.0.0.1:8317/v1/models";
            "http://127.0.0.1:8317/health";
            "http://127.0.0.1:8317"].

(** The assertion of [test_construct_models_url_from_base_endpoint],
    lines 111-128. *)
Definition test_construct_models_url_from_base_endpoint : bool :=
  list_eqb (urls_to_check "http://127.0.0.1:8317")
           ["http://127.0.0.1:8317/v1/models";
            "http://127.0.0.1:8317/models";
            "http://127.0.0.1:8317/health";
            "http://127.0.0.1:8317"].

End ApiReadiness.

(* ------------------------------------------------------------------ *)
(** ** Facts about Python strings *)

Module PyStrFacts.
Import PyStr.

Lemma substring_0_length (s : string) :
  substring 0 (String.length s) s = s.
Proof.
  induction s as [|a s IH]; simpl; [reflexivity|].
  now rewrite IH.
Qed.

Lemma substring_skip_prefix (p s : string) (m : nat) :
  substring (String.length p) m (p ++ s) = substring 0 m s.
Proof.
  induction p as [|a p IH]; simpl; [reflexivity|exact IH].
Qed.

Lemma length_app (p s : string) :
  String.length (p ++ s) = (String.length p + String.length s)%nat.
Proof.
  induction p as [|a p IH]; simpl; [reflexivity|].
  now rewrite IH.
Qed.

Lemma substring_split (s : string) :
  forall n m : nat,
    (n + m = String.length s)%nat ->
    s = substring 0 n s ++ substring n m s.
Proof.
  induction s as [|a s IH]; intros n m H; simpl in *.
  - destruct n; destruct m; simpl; try reflexivity; discriminate.
  - destruct n as [|n]; simpl.
    + destruct m as [|m]; [discriminate|].
      simpl in H. injection H as H. subst m.
      now rewrite substring_0_length.
    + f_equal. apply IH. lia.
Qed.

(** [endswith] is the suffix relation. *)
Lemma endswith_true_iff (s suffix : string) :
  endswith s suffix = true <-> exists p, s = p ++ suffix.
Proof.
  unfold endswith. rewrite andb_true_iff, Nat.leb_le, String.eqb_eq.
  split.
  - intros [Hle Heq].
    exists (substring 0 (String.length s - String.length suffix) s).
    pose proof (substring_split s (String.length s - String.length suffix)
                  (String.length suffix)) as Hs.
    rewrite Heq in Hs. apply Hs. lia.
  - intros [p ->]. rewrite length_app. split; [lia|].
    replace (String.length p + String.length suffix - String.length suffix)%nat
      with (String.length p) by lia.
    rewrite substring_skip_prefix. apply substring_0_length.
Qed.

Lemma endswith_app (p suffix : string) : endswith (p ++ suffix) suffix = true.
Proof. apply endswith_true_iff. now exists p. Qed.

Lemma endswith_false_iff (s suffix : string) :
  endswith s suffix = false <-> ~ exists p, s = p ++ suffix.
Proof.
  rewrite <- endswith_true_iff. destruct (endswith s suffix); split; intros H;
    try reflexivity; try discriminate; try (intro; discriminate).
  exfalso. now apply H.
Qed.

End PyStrFacts.

(* ------------------------------------------------------------------ *)
(** ** Facts about [rstrip] *)

Module RstripFacts.
Import PyStr PyStrFacts.

Lemma app_assoc_str (a b c : string) : (a ++ b) ++ c = a ++ (b ++ c).
Proof.
  induction a as [|x a IH]; simpl; [reflexivity|].
  now rewrite IH.
Qed.

Lemma app_last_not_empty (p : string) (a : ascii) :
  p ++ String a EmptyString <> EmptyString.
Proof. destruct p; discriminate. Qed.

Lemma mem_slash (a : ascii) : mem a "/" = true -> a = "/"%char.
Proof.
  simpl. rewrite orb_false_r. apply Ascii.eqb_eq.
Qed.

(** What [rstrip] removes is a run of slashes. *)
Lemma rstrip_slash_split (s : string) :
  exists n, s = rstrip "/" s ++ replicate n "/".
Proof.
  induction s as [|a s [n IH]].
  - now exists 0%nat.
  - cbn [rstrip]. destruct (rstrip "/" s) as [|b r] eqn:E.
    + destruct (mem a "/") eqn:Ha.
      * apply mem_slash in Ha. subst a. exists (S n).
        simpl in *. now rewrite <- IH.
      * exists n. simpl in *. now rewrite <- IH.
    + exists n. rewrite IH at 1. reflexivity.
Qed.

(** What [rstrip] keeps does not end in a stripped character. *)
Lemma rstrip_last (chars s : string) :
  forall p a, rstrip chars s = p ++ String a EmptyString -> mem a chars = false.
Proof.
  induction s as [|b s IH]; intros p a H; cbn [rstrip] in H.
  - now apply eq_sym, app_last_not_empty in H.
  - destruct (rstrip chars s) as [|c r] eqn:E.
    + destruct (mem b chars) eqn:Hb.
      * now apply eq_sym, app_last_not_empty in H.
      * destruct p as [|x p]; simpl in H.
        -- now injection H as ->.
        -- injection H as _ H. now apply eq_sym, app_last_not_empty in H.
    + destruct p as [|x p]; simpl in H.
      * discriminate.
      * injection H as _ H. now apply (IH p a).
Qed.

(** A string that ends in a character outside [chars] is left alone. *)
Lemma rstrip_keeps (chars p : string) (a : ascii) :
  mem a chars = false ->
  rstrip chars (p ++ String a EmptyString) = p ++ String a EmptyString.
Proof.
  intros Ha. induction p as [|b p IH]; cbn [append rstrip].
  - now rewrite Ha.
  - rewrite IH. destruct (p ++ String a EmptyString) eqn:E; [|reflexivity].
    now apply app_last_not_empty in E.
Qed.

Lemma rstrip_replicate (n : nat) : rstrip "/" (replicate n "/") = EmptyString.
Proof.
  induction n as [|n IH]; [reflexivity|].
  cbn [replicate rstrip]. now rewrite IH.
Qed.

(** Every string is empty or has a last character. *)
Lemma last_char (s : string) :
  s = EmptyString \/ exists p a, s = p ++ String a EmptyString.
Proof.
  induction s as [|b s [->|(p & a & ->)]]; [now left| |]; right.
  - now exists EmptyString, b.
  - now exists (String b p), a.
Qed.

(** [rstrip] undoes the appending of slashes to a string that has no
    trailing slash. *)
Lemma rstrip_app_slashes (base : string) (n : nat) :
  (~ exists p, base = p ++ "/") ->
  rstrip "/" (base ++ replicate n "/") = base.
Proof.
  intros Hbase. destruct (last_char base) as [->|(p & a & ->)].
  - apply rstrip_replicate.
  - assert (Ha : mem a "/" = false).
    { destruct (mem a "/") eqn:E; [|reflexivity].
      apply mem_slash in E. subst a. exfalso. apply Hbase. now exists p. }
    clear Hbase. induction p as [|b p IH]; cbn [append rstrip].
    + now rewrite rstrip_replicate, Ha.
    + rewrite IH. destruct (p ++ String a EmptyString) eqn:E; [|reflexivity].
      now apply app_last_not_empty in E.
Qed.

Lemma rstrip_no_trailing_slash (s : string) :
  ~ exists p, rstrip "/" s = p ++ "/".
Proof.
  intros [p H]. apply rstrip_last in H. discriminate.
Qed.

End RstripFacts.

(* ------------------------------------------------------------------ *)
(** ** The URL normalizer *)

Module DiscordBotFixesProofs.
Import PyStr PyStrFacts RstripFacts DiscordBotFixes.

Lemma url_ends_with_chat_completions (s : string) :
  exists p, get_chat_completions_url s = p ++ "/chat/completions".
Proof.
  unfold get_chat_completions_url.
  destruct (endswith (rstrip "/" s) "/chat/completions") eqn:E1.
  - now apply endswith_true_iff.
  - destruct (endswith (rstrip "/" s) "/v1") eqn:E2.
    + now exists (rstrip "/" s).
    + exists (rstrip "/" s ++ "/v1"). now rewrite app_assoc_str.
Qed.

(** C9, as the code has it: [rstrip('/')] removes every trailing slash, not
    one.  Every endpoint [s] is a [base] that ends in no slash followed by
    [n >= 0] slashes, and the result is decided by [base] alone: [base]
    itself when it ends in [/chat/completions]; else [base] followed by
    [/chat/completions] when it ends in [/v1]; else [base] followed by
    [/v1/chat/completions]. *)
Theorem get_chat_completions_url_cases (s : string) :
  (exists base n, s = base ++ replicate n "/" /\ ~ (exists p, base = p ++ "/"))
  /\
  (forall base n,
      s = base ++ replicate n "/" ->
      ~ (exists p, base = p ++ "/") ->
      ((exists p, base = p ++ "/chat/completions") ->
       get_chat_completions_url s = base)
      /\
      (~ (exists p, base = p ++ "/chat/completions") ->
       (exists p, base = p ++ "/v1") ->
       get_chat_completions_url s = base ++ "/chat/completions")
      /\
      (~ (exists p, base = p ++ "/chat/completions") ->
       ~ (exists p, base = p ++ "/v1") ->
       get_chat_completions_url s = base ++ "/v1/chat/completions")).
Proof.
  split.
  - destruct (rstrip_slash_split s) as [n Hn].
    exists (rstrip "/" s), n. split; [exact Hn|apply rstrip_no_trailing_slash].
  - intros base n -> Hbase. unfold get_chat_completions_url.
    rewrite (rstrip_app_slashes base n Hbase).
    repeat split.
    + intros H. apply endswith_true_iff in H. now rewrite H.
    + intros H1 H2. apply endswith_false_iff in H1. apply endswith_true_iff in H2.
      now rewrite H1, H2.
    + intros H1 H2. apply endswith_false_iff in H1, H2.
      now rewrite H1, H2.
Qed.

Lemma get_chat_completions_url_cases_witness :
  get_chat_completions_url "http://127.0.0.1:8317/v1//"
  = "http://127.0.0.1:8317/v1/chat/completions".
Proof.
  destruct (get_chat_completions_url_cases "http://127.0.0.1:8317/v1//")
    as [_ H].
  destruct (H "http://127.0.0.1:8317/v1" 2%nat) as (_ & H2 & _).
  - reflexivity.
  - apply endswith_false_iff. reflexivity.
  - apply H2.
    + apply endswith_false_iff. reflexivity.
    + apply endswith_true_iff. reflexivity.
Defined.

(** C9 as the specification words it fails: with two trailing slashes the
    code strips both, while "trimming one trailing slash" leaves one. *)
Lemma trim_one_slash_differs :
  get_chat_completions_url "http://127.0.0.1:8317//"
  = "http://127.0.0.1:8317/v1/chat/completions"
  /\ spec_chat_completions_url "http://127.0.0.1:8317//"
     = "http://127.0.0.1:8317//v1/chat/completions"
  /\ get_chat_completions_url "http://127.0.0.1:8317//"
     <> spec_chat_completions_url "http://127.0.0.1:8317//".
Proof.
  repeat split. discriminate.
Qed.

Lemma app_last_inj (p q : string) (a b : ascii) :
  p ++ String a EmptyString = q ++ String b EmptyString -> p = q /\ a = b.
Proof.
  revert q. induction p as [|x p IH]; intros [|y q] H; simpl in H.
  - now injection H as ->.
  - injection H as _ H. now apply eq_sym, app_last_not_empty in H.
  - injection H as _ H. now apply app_last_not_empty in H.
  - injection H as -> H. destruct (IH q H) as [-> ->]. now split.
Qed.

Lemma drop_last_app (p : string) (a : ascii) :
  drop_last (p ++ String a EmptyString) = p.
Proof.
  unfold drop_last. rewrite length_app. cbn [String.length].
  replace (String.length p + 1 - 1)%nat with (String.length p) by lia.
  induction p as [|x p IH]; cbn; [reflexivity|]. now rewrite IH.
Qed.

(** The code and the wording of the specification part only on endpoints
    with two or more trailing slashes. *)
Lemma agrees_with_spec_without_double_slash (s : string) :
  endswith s "//" = false ->
  get_chat_completions_url s = spec_chat_completions_url s.
Proof.
  intros Hs. unfold get_chat_completions_url, spec_chat_completions_url.
  enough (E : rstrip "/" s = spec_trim_one_slash s) by now rewrite E.
  unfold spec_trim_one_slash.
  destruct (last_char s) as [->|(p & a & ->)]; [reflexivity|].
  destruct (endswith (p ++ String a EmptyString) "/") eqn:Ha.
  - apply endswith_true_iff in Ha. destruct Ha as [q Hq].
    apply app_last_inj in Hq. destruct Hq as [<- ->].
    rewrite drop_last_app.
    apply (rstrip_app_slashes p 1). intros [q ->].
    apply endswith_false_iff in Hs. apply Hs. exists q.
    now rewrite app_assoc_str.
  - apply rstrip_keeps. destruct (mem a "/") eqn:E; [|reflexivity].
    apply mem_slash in E. subst a. now rewrite endswith_app in Ha.
Qed.

(** C10: the normalizer is idempotent. *)
Theorem get_chat_completions_url_idempotent (s : string) :
  get_chat_completions_url (get_chat_completions_url s)
  = get_chat_completions_url s.
Proof.
  destruct (url_ends_with_chat_completions s) as [p Hp].
  rewrite Hp. unfold get_chat_completions_url at 1.
  change "/chat/completions" with ("/chat/completion" ++ "s") at 1 2 3.
  rewrite <- app_assoc_str, rstrip_keeps by reflexivity.
  rewrite app_assoc_str. cbn [append].
  now rewrite endswith_app.
Qed.

End DiscordBotFixesProofs.

(* ------------------------------------------------------------------ *)
(** ** The secret updater *)

Module UpdateSecretProofs.
Import Json Py PyStr UpdateSecret Runs.

#[local] Arguments msg_get_failed : simpl never.
#[local] Arguments msg_put_failed : simpl never.
#[local] Arguments msg_put_ok : simpl never.
#[local] Arguments msg_request_error : simpl never.
#[local] Arguments msg_missing_key : simpl never.
#[local] Arguments msg_unexpected : simpl never.
#[local] Arguments pub_key_url : simpl never.
#[local] Arguments secret_url : simpl never.
#[local] Arguments request_headers : simpl never.
#[local] Arguments make_payload : simpl never.
#[local] Arguments isinstance : simpl never.
#[local] Arguments getitem : simpl never.
#[local] Arguments b64decode : simpl never.

(** Unfold one run of [update_secret] down to the calls to the world. *)
Ltac unfold_run :=
  unfold update_secret, update_secret_handlers, update_secret_body,
    http_get, http_put, seal_with;
  cbn.

(** Split on the next answer of the world, or on the next test. *)
Ltac world_case :=
  match goal with
  | |- context [match ?o with Returned _ => _ | Raised _ => _ end] =>
      let E := fresh "E" in destruct o eqn:E
  | |- context [if ?b then _ else _] =>
      let E := fresh "E" in destruct b eqn:E
  end.

Ltac world_cases := repeat (world_case; cbn).

(** An exception that [v[k]] raises is a [KeyError] exactly when [v] is an
    object without the key, and is never a [RequestException]. *)
Lemma getitem_raised (v : Json.t) (k : string) (e : exc) :
  getitem v k = Raised e ->
  isinstance e RequestException = false
  /\ isinstance e Exception = true
  /\ has_field v k = false
  /\ (forall d, v = JDict d ->
        isinstance e KeyError = true /\ e = KeyError_ ("'" ++ k ++ "'")).
Proof.
  unfold getitem. destruct v; try (intros [= <-]; repeat split; discriminate).
  simpl. destruct (lookup k entries); [discriminate|].
  intros [= <-]. repeat split.
Qed.

Lemma getitem_returned (v : Json.t) (k : string) (x : Json.t) :
  getitem v k = Returned x -> has_field v k = true.
Proof.
  unfold getitem. destruct v; try discriminate.
  simpl. now destruct (lookup k entries).
Qed.

Lemma getitem_benign (v : Json.t) (k : string) : benign (getitem v k).
Proof.
  destruct (getitem v k) eqn:E; simpl; [exact I|].
  now apply getitem_raised in E.
Qed.

(** The outer handlers, clause by clause. *)
Lemma handlers_catch (tr : list event) (e : exc) :
  try_except (tr, Raised e) update_secret_handlers
  = if isinstance e RequestException
    then ((tr ++ [EvPrint (msg_request_error e)])%list, Returned false)
    else if isinstance e KeyError
    then ((tr ++ [EvPrint (msg_missing_key e)])%list, Returned false)
    else if isinstance e Exception
    then ((tr ++ [EvPrint (msg_unexpected e)])%list, Returned false)
    else (tr, Raised e).
Proof.
  unfold try_except, update_secret_handlers. cbn.
  now destruct (isinstance e RequestException), (isinstance e KeyError),
    (isinstance e Exception).
Qed.

(** The key fetch answers a status other than 200. *)
Lemma run_get_status
      (w : World) (tok owner repo name value : string) (r : Response) :
  requests_get w (pub_key_url owner repo) (request_headers tok) = Returned r ->
  status_code r <> 200 ->
  update_secret w tok owner repo name value
  = ([EvGet (pub_key_url owner repo) (request_headers tok);
      EvPrint (msg_get_failed (status_code r) (text r))],
     Returned false).
Proof.
  intros Hget Hstatus. unfold_run. rewrite Hget. cbn.
  apply Z.eqb_neq in Hstatus. now rewrite Hstatus.
Qed.

(** The key fetch raises. *)
Lemma run_get_raised
      (w : World) (tok owner repo name value : string) (e : exc) :
  requests_get w (pub_key_url owner repo) (request_headers tok) = Raised e ->
  update_secret w tok owner repo name value
  = try_except ([EvGet (pub_key_url owner repo) (request_headers tok)],
                Raised e)
               update_secret_handlers.
Proof.
  intros Hget. unfold update_secret at 1, update_secret_body, http_get. cbn.
  now rewrite Hget.
Qed.

(** When the key fetch answers 200 and a field is missing from the body,
    the run is the GET followed by the handling of the exception of the
    subscript. *)
Lemma run_missing_field
      (w : World) (tok owner repo name value : string) (r : Response) (v : Json.t) :
  requests_get w (pub_key_url owner repo) (request_headers tok) = Returned r ->
  status_code r = 200 ->
  json r = Returned v ->
  has_field v "key_id" = false \/ has_field v "key" = false ->
  exists k e,
    (k = "key_id" \/ k = "key")
    /\ getitem v k = Raised e
    /\ update_secret w tok owner repo name value
       = try_except ([EvGet (pub_key_url owner repo) (request_headers tok)],
                     Raised e)
                    update_secret_handlers.
Proof.
  intros Hget Hstatus Hjson Hmissing.
  unfold update_secret at 1, update_secret_body, http_get. cbn.
  rewrite Hget. cbn. rewrite Hstatus. cbn. rewrite Hjson. cbn.
  destruct (getitem v "key_id") as [kid|e] eqn:E1; cbn.
  - destruct (getitem v "key") as [pk|e] eqn:E2; cbn.
    + apply getitem_returned in E1, E2. destruct Hmissing; congruence.
    + exists "key", e. auto.
  - exists "key_id", e. auto.
Qed.

(** C4: when the public-key fetch fails, by a status other than 200 or by
    a network error of [requests], [update_secret] returns [False] and no
    PUT is issued. *)
Theorem key_fetch_failure_short_circuits
        (w : World) (tok owner repo name value : string) :
  (exists r, requests_get w (pub_key_url owner repo) (request_headers tok)
             = Returned r /\ status_code r <> 200)
  \/ (exists e, requests_get w (pub_key_url owner repo) (request_headers tok)
                = Raised e /\ isinstance e RequestException = true) ->
  snd (update_secret w tok owner repo name value) = Returned false
  /\ puts (fst (update_secret w tok owner repo name value)) = [].
Proof.
  intros [(r & Hget & Hstatus)|(e & Hget & He)].
  - now rewrite (run_get_status _ _ _ _ _ _ _ Hget Hstatus).
  - rewrite (run_get_raised _ _ _ _ _ _ _ Hget), handlers_catch, He.
    now split.
Qed.

Lemma key_fetch_failure_short_circuits_witness :
  snd (update_secret (Scenarios.world_get_status 404 "Not Found")
                     "ghs_token" "89pl" "strix" "QWEN_TOKENS" "rotated-token-xyz")
  = Returned false
  /\ puts (fst (update_secret (Scenarios.world_get_status 404 "Not Found")
                              "ghs_token" "89pl" "strix" "QWEN_TOKENS"
                              "rotated-token-xyz")) = [].
Proof.
  apply key_fetch_failure_short_circuits.
  left. eexists. split; [reflexivity|discriminate].
Defined.

(** C1 as stated fails: without PyNaCl the run of scenario 1 returns [True],
    having sent the original value in its PUT. *)
Lemma value_sent_without_nacl :
  isinstance (ModuleNotFoundError_ "No module named 'nacl'") ImportError = true
  /\ import_nacl Scenarios.world_no_nacl
     = Raised (ModuleNotFoundError_ "No module named 'nacl'")
  /\ update_secret Scenarios.world_no_nacl
                   "ghs_token" "89pl" "strix" "QWEN_TOKENS" "rotated-token-xyz"
     = ([EvGet (pub_key_url "89pl" "strix") (request_headers "ghs_token");
         EvPrint msg_nacl_missing;
         EvPut (secret_url "89pl" "strix" "QWEN_TOKENS")
               (request_headers "ghs_token")
               (make_payload "rotated-token-xyz" (JStr "42"));
         EvPrint (msg_put_ok "QWEN_TOKENS")],
        Returned true)
  /\ existsb (transmits "rotated-token-xyz")
             (fst (update_secret Scenarios.world_no_nacl
                                 "ghs_token" "89pl" "strix" "QWEN_TOKENS"
                                 "rotated-token-xyz")) = true.
Proof.
  repeat split.
Qed.

(** Read what a concrete trace says about a PUT. *)
Ltac trace_cases :=
  repeat match goal with
         | H : False |- _ => destruct H
         | H : _ \/ _ |- _ => destruct H
         | H : EvPut _ _ _ = EvPut _ _ _ |- _ => injection H as <- <- <-
         | H : EvGet _ _ = EvPut _ _ _ |- _ => discriminate H
         | H : EvPrint _ = EvPut _ _ _ |- _ => discriminate H
         end.

(** *** Nothing escapes the handlers *)

Lemma bind_benign {A B} (m : M A) (k : A -> M B) :
  benign (snd m) ->
  (forall a, snd m = Returned a -> benign (snd (k a))) ->
  benign (snd (bind m k)).
Proof.
  destruct m as [tr [a|e]]; cbn; intros Hm Hk.
  - specialize (Hk a eq_refl). now destruct (k a).
  - exact Hm.
Qed.

Lemma find_handler_in {A} (e : exc) (clauses : list (string * (exc -> M A)))
      (h : exc -> M A) :
  find_handler e clauses = Some h -> exists cls, In (cls, h) clauses.
Proof.
  induction clauses as [|[cls h'] rest IH]; cbn; [discriminate|].
  destruct (isinstance e cls).
  - intros [= ->]. exists cls. now left.
  - intros H. destruct (IH H) as [c Hc]. exists c. now right.
Qed.

Lemma try_except_benign {A} (body : M A) (clauses : list (string * (exc -> M A))) :
  benign (snd body) ->
  (forall cls h e, In (cls, h) clauses -> benign (snd (h e))) ->
  benign (snd (try_except body clauses)).
Proof.
  destruct body as [tr [a|e]]; cbn; intros Hbody Hclauses; [exact I|].
  destruct (find_handler e clauses) as [h|] eqn:F; [|exact Hbody].
  destruct (find_handler_in _ _ _ F) as [cls Hin].
  specialize (Hclauses cls h e Hin). now destruct (h e).
Qed.

Lemma b64decode_benign (w : World) (v : Json.t) :
  (forall s, benign (base64_b64decode w s)) -> benign (b64decode w v).
Proof.
  intros H. destruct v; cbn; try reflexivity. apply H.
Qed.

(** In a world that raises only instances of [Exception], so does the body
    of the outer [try]. *)
Lemma update_secret_body_benign
      (w : World) (tok owner repo name value : string) :
  raises_only_exceptions w ->
  benign (snd (update_secret_body w tok owner repo name value)).
Proof.
  intros (Hget & Hjson & Hput & Himport & Hnacl & Hb64).
  unfold update_secret_body, http_get, http_put.
  apply bind_benign.
  { apply bind_benign; [exact I|]. intros _ _. apply Hget. }
  intros r Hr.
  assert (Hr' : requests_get w (pub_key_url owner repo) (request_headers tok)
                = Returned r).
  { cbn in Hr.
    now destruct (requests_get w (pub_key_url owner repo) (request_headers tok)). }
  destruct (negb (status_code r =? 200)); [exact I|].
  apply bind_benign; [apply (Hjson _ _ _ Hr')|]. intros v _.
  apply bind_benign; [apply getitem_benign|]. intros key_id _.
  apply bind_benign; [apply getitem_benign|]. intros public_key _.
  apply bind_benign.
  { apply try_except_benign.
    - apply bind_benign; [exact Himport|]. intros nacl Hn.
      destruct (Hnacl nacl Hn) as [Hpk Henc].
      unfold seal_with.
      apply bind_benign; [now apply b64decode_benign|]. intros bs _.
      apply bind_benign; [apply Hpk|]. intros pk _.
      apply bind_benign; [apply Henc|]. intros ct _. exact I.
    - intros cls h e [[= <- <-]|[]]. exact I. }
  intros final_encrypted_value _.
  apply bind_benign.
  { apply bind_benign; [exact I|]. intros _ _. apply Hput. }
  intros pr _.
  now destruct ((status_code pr =? 201) || (status_code pr =? 204)).
Qed.

(** What is not an instance of [Exception] is not caught: an interrupt
    during the key fetch leaves [update_secret] as it came. *)
Example interrupt_propagates :
  update_secret (Scenarios.world (Raised KeyboardInterrupt_)
                                 (Returned Scenarios.sample_nacl)
                                 (Returned (Scenarios.response 204 "" JNull)))
                "ghs_token" "89pl" "strix" "QWEN_TOKENS" "rotated-token-xyz"
  = ([EvGet (pub_key_url "89pl" "strix") (request_headers "ghs_token")],
     Raised KeyboardInterrupt_).
Proof. reflexivity. Qed.

(** The handlers turn every instance of [Exception] into [False]. *)
Lemma handlers_total (body : M bool) :
  benign (snd body) ->
  exists b, snd (try_except body update_secret_handlers) = Returned b.
Proof.
  destruct body as [tr [b|e]]; cbn [snd benign]; intros H.
  - now exists b.
  - rewrite handlers_catch, H. exists false.
    now destruct (isinstance e RequestException), (isinstance e KeyError).
Qed.

Lemma handlers_false (tr : list event) (e : exc) :
  isinstance e Exception = true ->
  snd (try_except (tr, Raised e) update_secret_handlers) = Returned false.
Proof.
  intros H. rewrite handlers_catch, H.
  now destruct (isinstance e RequestException), (isinstance e KeyError).
Qed.



(** The example worlds raise only instances of [Exception] when the
    answers they are built from do. *)
Lemma world_raises_only_exceptions
      (get : outcome Response) (nacl : outcome Nacl) (put : outcome Response) :
  benign get ->
  (forall r, get = Returned r -> benign (json r)) ->
  benign put ->
  nacl = Scenarios.no_nacl \/ nacl = Returned Scenarios.sample_nacl ->
  raises_only_exceptions (Scenarios.world get nacl put).
Proof.
  intros Hget Hjson Hput Hnacl.
  split; [|split; [|split; [|split; [|split]]]]; cbn.
  - intros _ _. exact Hget.
  - intros _ _. exact Hjson.
  - intros _ _ _. exact Hput.
  - destruct Hnacl as [->| ->]; reflexivity.
  - intros nacl' H. destruct Hnacl as [->| ->]; [discriminate H|].
    injection H as <-. split.
    + intros bs. cbn. now destruct (Nat.eqb (List.length bs) 32).
    + intros pk pt. exact I.
  - intros s. exact I.
Qed.


End UpdateSecretProofs.

(* ------------------------------------------------------------------ *)
(** ** More about the URL normalizer *)

Module UrlNormalizerProperties.
Import PyStr PyStrFacts RstripFacts DiscordBotFixes DiscordBotFixesProofs.

Lemma replicate_app (m n : nat) (c : ascii) :
  replicate m c ++ replicate n c = replicate (m + n) c.
Proof.
  induction m as [|m IH]; cbn; [reflexivity|]. now rewrite IH.
Qed.

(** Slashes appended to a string are stripped with the ones it has. *)
Lemma rstrip_more_slashes (s : string) (n : nat) :
  rstrip "/" (s ++ replicate n "/") = rstrip "/" s.
Proof.
  destruct (rstrip_slash_split s) as [m Hm].
  rewrite Hm at 1. rewrite app_assoc_str, replicate_app.
  apply rstrip_app_slashes, rstrip_no_trailing_slash.
Qed.

(** A string is no suffix of one that ends in another character. *)
Lemma endswith_last_differs (p q : string) (a b : ascii) :
  a <> b ->
  endswith (p ++ String a EmptyString) (q ++ String b EmptyString) = false.
Proof.
  intros Hab. apply endswith_false_iff. intros [x H].
  rewrite <- app_assoc_str in H. apply app_last_inj in H.
  now destruct H.
Qed.

Lemma no_trailing_slash_of_last (p : string) (a : ascii) :
  a <> "/"%char -> ~ exists q, p ++ String a EmptyString = q ++ "/".
Proof.
  intros Ha [q H]. apply app_last_inj in H. now destruct H.
Qed.

Lemma url_of_chat_completions (p : string) :
  get_chat_completions_url (p ++ "/chat/completions") = p ++ "/chat/completions".
Proof.
  unfold get_chat_completions_url.
  change "/chat/completions" with ("/chat/completion" ++ "s") at 1 2 3.
  rewrite <- app_assoc_str, rstrip_keeps by reflexivity.
  rewrite app_assoc_str. cbn [append].
  now rewrite endswith_app.
Qed.

Lemma app_empty_r (s : string) : s ++ "" = s.
Proof.
  induction s as [|a s IH]; cbn; [reflexivity|]. now rewrite IH.
Qed.

(** The result always ends in [/chat/completions], never in a slash, and
    it is the endpoint without its trailing slashes followed by nothing, by
    [/chat/completions] or by [/v1/chat/completions]: the normalizer only
    removes slashes at the end and appends. *)
Theorem url_shape (s : string) :
  (exists p, get_chat_completions_url s = p ++ "/chat/completions")
  /\ ~ (exists q, get_chat_completions_url s = q ++ "/")
  /\ (exists base n suffix,
         s = base ++ replicate n "/"
         /\ ~ (exists q, base = q ++ "/")
         /\ get_chat_completions_url s = base ++ suffix
         /\ (suffix = "" \/ suffix = "/chat/completions"
             \/ suffix = "/v1/chat/completions")).
Proof.
  split; [apply url_ends_with_chat_completions|]. split.
  - destruct (url_ends_with_chat_completions s) as [p ->].
    change "/chat/completions" with ("/chat/completion" ++ "s").
    rewrite <- app_assoc_str. now apply no_trailing_slash_of_last.
  - destruct (rstrip_slash_split s) as [n Hn].
    exists (rstrip "/" s), n. unfold get_chat_completions_url.
    destruct (endswith (rstrip "/" s) "/chat/completions").
    + exists "". rewrite app_empty_r.
      repeat split; auto using rstrip_no_trailing_slash.
    + destruct (endswith (rstrip "/" s) "/v1"); eexists;
        repeat split; eauto using rstrip_no_trailing_slash.
Qed.

(** Trailing slashes of the endpoint do not matter. *)
Theorem url_ignores_trailing_slashes (s : string) (n : nat) :
  get_chat_completions_url (s ++ replicate n "/") = get_chat_completions_url s.
Proof.
  unfold get_chat_completions_url. now rewrite rstrip_more_slashes.
Qed.

(** The normalizer leaves exactly the strings that end in
    [/chat/completions] as they are. *)
Theorem url_fixed_points (s : string) :
  get_chat_completions_url s = s <-> exists p, s = p ++ "/chat/completions".
Proof.
  split.
  - intros H. destruct (url_ends_with_chat_completions s) as [p Hp].
    exists p. now rewrite <- H.
  - intros [p ->]. apply url_of_chat_completions.
Qed.

(** An endpoint that ends in [/v1], with any number of slashes after it,
    gets [/chat/completions] after the [/v1], whatever comes before. *)
Theorem url_of_v1_endpoint (host : string) (n : nat) :
  get_chat_completions_url (host ++ "/v1" ++ replicate n "/")
  = host ++ "/v1/chat/completions".
Proof.
  rewrite <- app_assoc_str, url_ignores_trailing_slashes.
  assert (Hstrip : rstrip "/" (host ++ "/v1") = host ++ "/v1").
  { change "/v1" with ("/v" ++ "1").
    rewrite <- app_assoc_str. now apply rstrip_keeps. }
  assert (Hnot : endswith (host ++ "/v1") "/chat/completions" = false).
  { change "/v1" with ("/v" ++ "1").
    change "/chat/completions" with ("/chat/completion" ++ "s").
    rewrite <- app_assoc_str. now apply endswith_last_differs. }
  unfold get_chat_completions_url.
  now rewrite Hstrip, Hnot, endswith_app, app_assoc_str.
Qed.

End UrlNormalizerProperties.

(* ------------------------------------------------------------------ *)
(** ** The URLs of the readiness check *)

Module ApiReadinessProofs.
Import PyStr PyStrFacts RstripFacts ApiReadiness UrlNormalizerProperties.

Lemma substring_0_app (p q : string) :
  substring 0 (String.length p) (p ++ q) = p.
Proof.
  induction p as [|a p IH]; cbn.
  - now destruct q.
  - now rewrite IH.
Qed.

Lemma rstrip_v1 (host : string) (n : nat) :
  rstrip "/" (host ++ "/v1" ++ replicate n "/") = host ++ "/v1".
Proof.
  rewrite <- app_assoc_str, rstrip_more_slashes.
  change "/v1" with ("/v" ++ "1").
  rewrite <- app_assoc_str. now apply rstrip_keeps.
Qed.

(** [base[:-3]] takes the [/v1] off: for an endpoint that ends in [/v1],
    with any number of slashes after it, the first readiness check builds
    the models URL under [/v1], the health URL beside it and the bare host;
    for any other endpoint it builds nothing.  The test's own endpoint is
    one instance. *)
Theorem urls_to_check_v1_of_v1_endpoint :
  (forall host n,
      urls_to_check_v1 (host ++ "/v1" ++ replicate n "/")
      = [host ++ "/v1/models"; host ++ "/health"; host])
  /\ (forall s, (~ exists host n, s = host ++ "/v1" ++ replicate n "/") ->
                urls_to_check_v1 s = [])
  /\ test_construct_models_url_from_v1_endpoint = true.
Proof.
  split; [|split].
  - intros host n. unfold urls_to_check_v1. rewrite rstrip_v1, endswith_app.
    unfold drop_last3. rewrite length_app. cbn [String.length].
    replace (String.length host + 3 - 3)%nat with (String.length host) by lia.
    now rewrite substring_0_app, app_assoc_str.
  - intros s Hs. unfold urls_to_check_v1.
    destruct (endswith (rstrip "/" s) "/v1") eqn:E; [|reflexivity].
    exfalso. apply Hs. apply endswith_true_iff in E. destruct E as [host E].
    destruct (rstrip_slash_split s) as [n Hn].
    exists host, n. now rewrite Hn at 1; rewrite E, app_assoc_str.
  - reflexivity.
Qed.

Lemma urls_to_check_v1_witness :
  urls_to_check_v1 "http://127.0.0.1:8317/" = [].
Proof.
  apply (proj1 (proj2 urls_to_check_v1_of_v1_endpoint)).
  intros (host & n & H).
  pose proof (proj1 urls_to_check_v1_of_v1_endpoint host n) as K.
  rewrite <- H in K. discriminate K.
Defined.

(** Whatever the endpoint, the second readiness check tries first a URL
    that ends in [/v1/models]: [/models] after an endpoint that ends in
    [/v1], [/v1/models] after any other; and in the second case the last
    URL it tries is the endpoint without its trailing slashes: the [base]
    below ends in no slash. *)
Theorem urls_to_check_first_is_v1_models (s : string) :
  (exists p rest, urls_to_check s = (p ++ "/v1/models") :: rest)
  /\ (forall host n, s = host ++ "/v1" ++ replicate n "/" ->
                     urls_to_check s = [host ++ "/v1/models"])
  /\ ((~ exists host n, s = host ++ "/v1" ++ replicate n "/") ->
      exists base n,
        s = base ++ replicate n "/"
        /\ ~ (exists q, base = q ++ "/")
        /\ urls_to_check s
           = [base ++ "/v1/models"; base ++ "/models"; base ++ "/health"; base]).
Proof.
  split; [|split].
  - unfold urls_to_check.
    destruct (endswith (rstrip "/" s) "/v1") eqn:E.
    + apply endswith_true_iff in E. destruct E as [p ->].
      exists p, []. now rewrite app_assoc_str.
    + now exists (rstrip "/" s), [rstrip "/" s ++ "/models";
                                  rstrip "/" s ++ "/health"; rstrip "/" s].
  - intros host n ->. unfold urls_to_check.
    now rewrite rstrip_v1, endswith_app, app_assoc_str.
  - intros Hs. unfold urls_to_check.
    destruct (rstrip_slash_split s) as [n Hn].
    destruct (endswith (rstrip "/" s) "/v1") eqn:E.
    + exfalso. apply Hs. apply endswith_true_iff in E. destruct E as [host E].
      exists host, n. now rewrite Hn at 1; rewrite E, app_assoc_str.
    + exists (rstrip "/" s), n.
      split; [exact Hn|]. split; [apply rstrip_no_trailing_slash|reflexivity].
Qed.

Lemma urls_to_check_witness :
  urls_to_check "http://127.0.0.1:8317/v1/" = ["http://127.0.0.1:8317/v1/models"]
  /\ test_construct_models_url_from_base_endpoint = true.
Proof.
  split.
  - apply (proj1 (proj2 (urls_to_check_first_is_v1_models
                           "http://127.0.0.1:8317/v1/"))
                 "http://127.0.0.1:8317" 1%nat).
    reflexivity.
  - reflexivity.
Defined.

End ApiReadinessProofs.

(* ------------------------------------------------------------------ *)
(** ** More about the secret updater *)

Module UpdateSecretProperties.
Import Json Py PyStr UpdateSecret Runs UpdateSecretProofs.

#[local] Arguments msg_get_failed : simpl never.
#[local] Arguments msg_put_failed : simpl never.
#[local] Arguments msg_put_ok : simpl never.
#[local] Arguments msg_request_error : simpl never.
#[local] Arguments msg_missing_key : simpl never.
#[local] Arguments msg_unexpected : simpl never.
#[local] Arguments pub_key_url : simpl never.
#[local] Arguments secret_url : simpl never.
#[local] Arguments request_headers : simpl never.
#[local] Arguments make_payload : simpl never.
#[local] Arguments isinstance : simpl never.
#[local] Arguments getitem : simpl never.
#[local] Arguments b64decode : simpl never.
#[local] Arguments seal_with : simpl never.


(** An equation the run has already established. *)
Ltac known := first [reflexivity | eassumption].




(** What a PUT sends as [encrypted_value] is the base64 text of the sealed
    UTF-8 bytes of the value, sealed under the key of the fetched body, or,
    after the PyNaCl warning was printed, the value itself; nothing else. *)
Theorem put_sends_sealed_or_original
        (w : World) (tok owner repo name value : string)
        (url : string) (h : headers) (body : Json.t) :
  In (EvPut url h body) (fst (update_secret w tok owner repo name value)) ->
  exists r v public_key key_id encrypted_value,
    requests_get w (pub_key_url owner repo) (request_headers tok) = Returned r
    /\ json r = Returned v
    /\ getitem v "key" = Returned public_key
    /\ body = make_payload encrypted_value key_id
    /\ ((exists nacl bs pk ct,
            import_nacl w = Returned nacl
            /\ b64decode w public_key = Returned bs
            /\ PublicKey nacl bs = Returned pk
            /\ SealedBox_encrypt nacl pk (list_byte_of_string value) = Returned ct
            /\ encrypted_value = base64_b64encode w ct)
        \/ (encrypted_value = value
            /\ In (EvPrint msg_nacl_missing)
                  (fst (update_secret w tok owner repo name value)))).
Proof.
  remember (update_secret w tok owner repo name value) as run eqn:Hrun.
  intros Hin. revert Hrun. unfold_run. world_cases; intros ->;
    cbn in Hin; trace_cases;
    do 5 eexists; (split; [known|]); (split; [known|]);
    (split; [known|]); (split; [reflexivity|]);
    first [ left; do 4 eexists; repeat split; known
          | right; split; [reflexivity|cbn; auto 10] ].
Qed.

Lemma put_sends_sealed_or_original_witness :
  exists r v public_key key_id encrypted_value,
    requests_get Scenarios.world_updated (pub_key_url "89pl" "strix")
                 (request_headers "ghs_token") = Returned r
    /\ json r = Returned v
    /\ getitem v "key" = Returned public_key
    /\ make_payload
         (string_of_list_byte
            (list_byte_of_string Scenarios.sample_key
               ++ list_byte_of_string "rotated-token-xyz"))
         (JStr "42")
       = make_payload encrypted_value key_id
    /\ ((exists nacl bs pk ct,
            import_nacl Scenarios.world_updated = Returned nacl
            /\ b64decode Scenarios.world_updated public_key = Returned bs
            /\ PublicKey nacl bs = Returned pk
            /\ SealedBox_encrypt nacl pk (list_byte_of_string "rotated-token-xyz")
               = Returned ct
            /\ encrypted_value = base64_b64encode Scenarios.world_updated ct)
        \/ (encrypted_value = "rotated-token-xyz"
            /\ In (EvPrint msg_nacl_missing)
                  (fst (update_secret Scenarios.world_updated
                                      "ghs_token" "89pl" "strix" "QWEN_TOKENS"
                                      "rotated-token-xyz")))).
Proof.
  apply (put_sends_sealed_or_original
           Scenarios.world_updated
           "ghs_token" "89pl" "strix" "QWEN_TOKENS" "rotated-token-xyz"
           (secret_url "89pl" "strix" "QWEN_TOKENS")
           (request_headers "ghs_token")).
  right. left. reflexivity.
Defined.



(** Sealing prints nothing and issues no request. *)
Lemma seal_with_silent (w : World) (nacl : Nacl) (value : string) (k : Json.t) :
  fst (seal_with w nacl value k) = [].
Proof.
  unfold seal_with. cbn. now world_cases.
Qed.

(** When PyNaCl is there and sealing fails with anything but an
    [ImportError] (a key that is no base64 text or has not 32 bytes, say),
    the value is not sent: no PUT is issued, and [update_secret] returns
    [False] after the report of the exception. *)
Theorem sealing_failure_sends_nothing
        (w : World) (tok owner repo name value : string)
        (r : Response) (v key_id public_key : Json.t) (nacl : Nacl) (e : exc) :
  requests_get w (pub_key_url owner repo) (request_headers tok) = Returned r ->
  status_code r = 200 ->
  json r = Returned v ->
  getitem v "key_id" = Returned key_id ->
  getitem v "key" = Returned public_key ->
  import_nacl w = Returned nacl ->
  snd (seal_with w nacl value public_key) = Raised e ->
  isinstance e ImportError = false ->
  isinstance e Exception = true ->
  snd (update_secret w tok owner repo name value) = Returned false
  /\ puts (fst (update_secret w tok owner repo name value)) = []
  /\ exists reason,
      (reason = RequestError e \/ reason = MissingKey e \/ reason = Unexpected e)
      /\ fst (update_secret w tok owner repo name value)
         = [EvGet (pub_key_url owner repo) (request_headers tok);
            EvPrint (diagnostic reason)].
Proof.
  intros Hget Hstatus Hjson Hkid Hpk Himport Hseal Hnot Hexc.
  pose proof (seal_with_silent w nacl value public_key) as Hsilent.
  unfold update_secret, update_secret_handlers, update_secret_body, http_get.
  cbn. rewrite Hget. cbn. rewrite Hstatus. cbn. rewrite Hjson. cbn.
  rewrite Hkid. cbn. rewrite Hpk. cbn. rewrite Himport. cbn.
  destruct (seal_with w nacl value public_key) as [tr o].
  cbn in Hseal, Hsilent. subst tr o. cbn. rewrite Hnot. cbn. rewrite Hexc.
  destruct (isinstance e RequestException); [|destruct (isinstance e KeyError)];
    cbn; (split; [reflexivity|]); (split; [reflexivity|]).
  - exists (RequestError e). auto.
  - exists (MissingKey e). auto.
  - exists (Unexpected e). auto.
Qed.

Lemma sealing_failure_witness :
  snd (update_secret
         (Scenarios.world
            (Returned (Scenarios.response 200 ""
                         (JDict [("key_id", JStr "42"); ("key", JStr "c2hvcnQ=")])))
            (Returned Scenarios.sample_nacl)
            (Returned (Scenarios.response 204 "" JNull)))
         "ghs_token" "89pl" "strix" "QWEN_TOKENS" "rotated-token-xyz")
  = Returned false.
Proof.
  eapply (sealing_failure_sends_nothing
            (Scenarios.world
               (Returned (Scenarios.response 200 ""
                            (JDict [("key_id", JStr "42");
                                    ("key", JStr "c2hvcnQ=")])))
               (Returned Scenarios.sample_nacl)
               (Returned (Scenarios.response 204 "" JNull)))).
  - reflexivity.
  - reflexivity.
  - reflexivity.
  - reflexivity.
  - reflexivity.
  - reflexivity.
  - reflexivity.
  - reflexivity.
  - reflexivity.
Defined.

(** A 200 answer whose body is no JSON makes [update_secret] return
    [False] without a PUT; when [response.json()] raises an exception of
    [requests], as it does from requests 2.27 on, the report is the one of a
    request error. *)
Theorem invalid_json_sends_nothing
        (w : World) (tok owner repo name value : string)
        (r : Response) (e : exc) :
  requests_get w (pub_key_url owner repo) (request_headers tok) = Returned r ->
  status_code r = 200 ->
  json r = Raised e ->
  isinstance e Exception = true ->
  snd (update_secret w tok owner repo name value) = Returned false
  /\ puts (fst (update_secret w tok owner repo name value)) = []
  /\ (isinstance e RequestException = true ->
      fst (update_secret w tok owner repo name value)
      = [EvGet (pub_key_url owner repo) (request_headers tok);
         EvPrint (msg_request_error e)]).
Proof.
  intros Hget Hstatus Hjson Hexc.
  unfold_run. rewrite Hget. cbn. rewrite Hstatus. cbn. rewrite Hjson. cbn.
  rewrite Hexc.
  destruct (isinstance e RequestException); [|destruct (isinstance e KeyError)];
    cbn; repeat split; discriminate.
Qed.

Lemma invalid_json_witness :
  snd (update_secret
         (Scenarios.world
            (Returned
               {| status_code := 200; text := "<html>";
                  json := Raised
                            (mk_exc ["requests.exceptions.JSONDecodeError";
                                     "requests.exceptions.InvalidJSONError";
                                     "requests.exceptions.RequestException";
                                     "json.decoder.JSONDecodeError";
                                     "ValueError"; "OSError"; "Exception";
                                     "BaseException"]
                                    "Expecting value: line 1 column 1 (char 0)"
                                    None) |})
            (Returned Scenarios.sample_nacl)
            (Returned (Scenarios.response 204 "" JNull)))
         "ghs_token" "89pl" "strix" "QWEN_TOKENS" "rotated-token-xyz")
  = Returned false.
Proof.
  eapply (invalid_json_sends_nothing
            (Scenarios.world
               (Returned
                  {| status_code := 200; text := "<html>";
                     json := Raised
                               (mk_exc ["requests.exceptions.JSONDecodeError";
                                        "requests.exceptions.InvalidJSONError";
                                        "requests.exceptions.RequestException";
                                        "json.decoder.JSONDecodeError";
                                        "ValueError"; "OSError"; "Exception";
                                        "BaseException"]
                                       "Expecting value: line 1 column 1 (char 0)"
                                       None) |})
               (Returned Scenarios.sample_nacl)
               (Returned (Scenarios.response 204 "" JNull)))).
  - reflexivity.
  - reflexivity.
  - reflexivity.
  - reflexivity.
Defined.

(** [encrypt_secret_with_public_key] issues no request, and the only line
    it ever prints is the PyNaCl warning, after which it returns the value
    it was given. *)
Theorem encrypt_prints_only_the_warning
        (w : World) (secret_value public_key_raw : string) :
  fst (encrypt_secret_with_public_key w secret_value public_key_raw) = []
  \/ encrypt_secret_with_public_key w secret_value public_key_raw
     = ([EvPrint msg_nacl_missing], Returned secret_value).
Proof.
  unfold encrypt_secret_with_public_key, seal_with. cbn.
  world_cases; auto.
Qed.

(** With PyNaCl there, [encrypt_secret_with_public_key] returns the base64
    text of the sealed bytes; and it has no handler for anything but an
    [ImportError], so a key that cannot be decoded or used makes it raise. *)
Theorem encrypt_seals_or_raises
        (w : World) (secret_value public_key_raw : string) (nacl : Nacl) :
  import_nacl w = Returned nacl ->
  (forall bs pk ct,
      base64_b64decode w public_key_raw = Returned bs ->
      PublicKey nacl bs = Returned pk ->
      SealedBox_encrypt nacl pk (list_byte_of_string secret_value) = Returned ct ->
      encrypt_secret_with_public_key w secret_value public_key_raw
      = ([], Returned (base64_b64encode w ct)))
  /\
  (forall e,
      snd (seal_with w nacl secret_value (JStr public_key_raw)) = Raised e ->
      isinstance e ImportError = false ->
      encrypt_secret_with_public_key w secret_value public_key_raw
      = ([], Raised e)).
Proof.
  intros Himport. split.
  - intros bs pk ct Hbs Hpk Hct.
    unfold encrypt_secret_with_public_key, seal_with. cbn.
    rewrite Himport. cbn. unfold b64decode. rewrite Hbs. cbn.
    rewrite Hpk. cbn. now rewrite Hct.
  - intros e Hseal Hnot.
    pose proof (seal_with_silent w nacl secret_value (JStr public_key_raw))
      as Hsilent.
    unfold encrypt_secret_with_public_key. cbn. rewrite Himport. cbn.
    destruct (seal_with w nacl secret_value (JStr public_key_raw)) as [tr o].
    cbn in Hseal, Hsilent. subst tr o. cbn. now rewrite Hnot.
Qed.

Lemma encrypt_seals_or_raises_witness :
  encrypt_secret_with_public_key Scenarios.world_updated "rotated-token-xyz" "c2hvcnQ="
  = ([], Raised (ValueError_ "The public key must be exactly 32 bytes long")).
Proof.
  refine (proj2 (encrypt_seals_or_raises
                   Scenarios.world_updated "rotated-token-xyz" "c2hvcnQ="
                   Scenarios.sample_nacl eq_refl)
                _ eq_refl eq_refl).
Defined.

(** [update_secret] seals as [encrypt_secret_with_public_key] does: for a
    fetched key that is a string, what the function would print is printed
    between the GET and the PUT, what it would return is the
    [encrypted_value] of the PUT, and what it would raise goes to the
    handlers of [update_secret] with no PUT issued. *)
Theorem update_secret_seals_as_encrypt
        (w : World) (tok owner repo name value : string)
        (r : Response) (v key_id : Json.t) (key : string) :
  requests_get w (pub_key_url owner repo) (request_headers tok) = Returned r ->
  status_code r = 200 ->
  json r = Returned v ->
  getitem v "key_id" = Returned key_id ->
  getitem v "key" = Returned (JStr key) ->
  (forall tr encrypted_value,
      encrypt_secret_with_public_key w value key = (tr, Returned encrypted_value) ->
      exists rest,
        fst (update_secret w tok owner repo name value)
        = (EvGet (pub_key_url owner repo) (request_headers tok) :: tr
             ++ EvPut (secret_url owner repo name) (request_headers tok)
                      (make_payload encrypted_value key_id) :: rest)%list)
  /\
  (forall tr e,
      encrypt_secret_with_public_key w value key = (tr, Raised e) ->
      update_secret w tok owner repo name value
      = try_except
          (EvGet (pub_key_url owner repo) (request_headers tok) :: tr, Raised e)
          update_secret_handlers).
Proof.
  intros Hget Hstatus Hjson Hkid Hkey.
  unfold update_secret at 1 2, update_secret_body, http_get, http_put.
  unfold encrypt_secret_with_public_key.
  cbn. rewrite Hget. cbn. rewrite Hstatus. cbn. rewrite Hjson. cbn.
  rewrite Hkid. cbn. rewrite Hkey. cbn.
  destruct (try_except _ _) as [tr0 [fev|e0]]; split.
  - intros tr encrypted_value [= <- <-]. cbn.
    world_cases; eexists; rewrite <- ?app_assoc; cbn; reflexivity.
  - discriminate.
  - discriminate.
  - intros tr e [= <- <-]. reflexivity.
Qed.

Lemma update_secret_seals_as_encrypt_witness :
  exists rest,
    fst (update_secret Scenarios.world_updated
                       "ghs_token" "89pl" "strix" "QWEN_TOKENS" "rotated-token-xyz")
    = (EvGet (pub_key_url "89pl" "strix") (request_headers "ghs_token") :: []
         ++ EvPut (secret_url "89pl" "strix" "QWEN_TOKENS")
                  (request_headers "ghs_token")
                  (make_payload
                     (string_of_list_byte
                        (list_byte_of_string Scenarios.sample_key
                           ++ list_byte_of_string "rotated-token-xyz"))
                     (JStr "42")) :: rest)%list.
Proof.
  refine (proj1 (update_secret_seals_as_encrypt
                   Scenarios.world_updated
                   "ghs_token" "89pl" "strix" "QWEN_TOKENS" "rotated-token-xyz"
                   Scenarios.key_response _ (JStr "42") Scenarios.sample_key
                   eq_refl eq_refl eq_refl eq_refl eq_refl)
                [] _ eq_refl).
Defined.

(** A PUT that fails with an exception of [requests] (a timeout, a lost
    connection) is not tried again: it stays the only PUT of the run, the
    request error is the last line printed, and the result is [False]. *)
Theorem put_error_is_not_retried
        (w : World) (tok owner repo name value : string)
        (url : string) (h : headers) (body : Json.t) (e : exc) :
  In (EvPut url h body) (fst (update_secret w tok owner repo name value)) ->
  requests_put w url h body = Raised e ->
  isinstance e RequestException = true ->
  snd (update_secret w tok owner repo name value) = Returned false
  /\ puts (fst (update_secret w tok owner repo name value)) = [EvPut url h body]
  /\ List.last (fst (update_secret w tok owner repo name value)) (EvPrint "")
     = EvPrint (msg_request_error e).
Proof.
  remember (update_secret w tok owner repo name value) as run eqn:Hrun.
  intros Hin Hput He. revert Hrun. unfold_run. world_cases; intros ->;
    cbn in Hin; trace_cases;
    match goal with
    | E : requests_put _ _ _ _ = _ |- _ =>
        rewrite Hput in E; try discriminate E; injection E as <-
    end;
    try congruence; repeat split.
Qed.

Lemma put_error_witness :
  snd (update_secret
         (Scenarios.world (Returned Scenarios.key_response) Scenarios.no_nacl
                          (Raised (ConnectTimeout_ "timed out")))
         "ghs_token" "89pl" "strix" "QWEN_TOKENS" "rotated-token-xyz")
  = Returned false.
Proof.
  eapply (put_error_is_not_retried
            (Scenarios.world (Returned Scenarios.key_response) Scenarios.no_nacl
                             (Raised (ConnectTimeout_ "timed out")))).
  - right. right. left. reflexivity.
  - reflexivity.
  - reflexivity.
Defined.

(** In a world whose calls raise only instances of [Exception], the
    process that runs [main] always ends by [sys.exit], with status 0 or 1;
    the status is 0 exactly when [sys.argv] has six entries and
    [update_secret] returned [True] on the last five. *)
Theorem main_exits_zero_or_one (w : World) (argv : list string) :
  raises_only_exceptions w ->
  (exit_status (snd (main w argv)) = Some 0
   \/ exit_status (snd (main w argv)) = Some 1)
  /\ (exists e, snd (main w argv) = Raised e /\ isinstance e "SystemExit" = true)
  /\ (exit_status (snd (main w argv)) = Some 0
      <-> exists prog tok owner repo name value,
          argv = [prog; tok; owner; repo; name; value]
          /\ snd (update_secret w tok owner repo name value) = Returned true).
Proof.
  intros Hw.
  destruct (Nat.eqb (List.length argv) 6) eqn:Hlen.
  - apply Nat.eqb_eq in Hlen.
    destruct argv as [|prog [|tok [|owner [|repo [|name [|value [|x argv]]]]]]];
      try discriminate Hlen.
    destruct (handlers_total _ (update_secret_body_benign
                                  w tok owner repo name value Hw)) as [b Hb].
    fold (update_secret w tok owner repo name value) in Hb.
    unfold main. cbn.
    destruct (update_secret w tok owner repo name value) as [tr o] eqn:Hrun.
    cbn in Hb. subst o. cbn. destruct b; cbn.
    + split; [now left|]. split; [eexists; split; reflexivity|].
      split; [|reflexivity]. intros _.
      exists prog, tok, owner, repo, name, value. now rewrite Hrun.
    + split; [now right|]. split; [eexists; split; reflexivity|].
      split; [discriminate|].
      intros (p & t & o & r & n & v & [= <- <- <- <- <- <-] & H).
      rewrite Hrun in H. discriminate H.
  - unfold main. rewrite Hlen. cbn.
    split; [now right|]. split; [eexists; split; reflexivity|].
    split; [discriminate|].
    intros (p & t & o & r & n & v & -> & _). discriminate Hlen.
Qed.

Lemma main_exits_zero_or_one_witness :
  exit_status (snd (main Scenarios.world_no_nacl ["update_secret.py"; "ghs_token"]))
  = Some 0
  \/ exit_status (snd (main Scenarios.world_no_nacl
                            ["update_secret.py"; "ghs_token"]))
     = Some 1.
Proof.
  apply main_exits_zero_or_one.
  apply world_raises_only_exceptions.
  - exact I.
  - intros r [= <-]. exact I.
  - exact I.
  - now left.
Defined.

End UpdateSecretProperties.

(* ------------------------------------------------------------------ *)
(** ** What a printed report tells *)

Module ReportFacts.
Import PyStr.

Lemma app_inv_head_str (p a b : string) : p ++ a = p ++ b -> a = b.
Proof.
  induction p as [|c p IH]; cbn; [auto|].
  intros [= H]. auto.
Qed.

(** The decimal text of a number has no space in it. *)
Lemma uint_no_space (d : Decimal.uint) :
  mem " " (NilEmpty.string_of_uint d) = false.
Proof.
  induction d; cbn; auto.
Qed.

Lemma str_of_int_no_space (n : Z) : mem " " (str_of_int n) = false.
Proof.
  unfold str_of_int, NilZero.string_of_int, NilZero.string_of_uint.
  destruct (Z.to_int n) as [d|d]; destruct d; cbn; auto using uint_no_space;
    apply (uint_no_space d).
Qed.

(** Two texts that agree, each cut at its first space, agree on both sides
    of it. *)
Lemma split_at_space (a b x y : string) :
  mem " " a = false -> mem " " b = false ->
  a ++ String " " x = b ++ String " " y -> a = b /\ x = y.
Proof.
  revert b. induction a as [|c a IH]; intros [|d b] Ha Hb H; cbn in *.
  - now injection H as ->.
  - injection H as <- _. discriminate Hb.
  - injection H as -> _. discriminate Ha.
  - injection H as -> H.
    apply orb_false_iff in Ha, Hb.
    destruct (IH b (proj2 Ha) (proj2 Hb) H) as [-> ->]. now split.
Qed.

(** [str] is one-to-one on [int]. *)
Lemma str_of_int_inj (a b : Z) : str_of_int a = str_of_int b -> a = b.
Proof.
  unfold str_of_int. intros H. apply DecimalZ.to_int_inj.
  assert (Hnil : forall n, Z.to_int n <> Decimal.Pos Decimal.Nil
                           /\ Z.to_int n <> Decimal.Neg Decimal.Nil).
  { intros [|p|p]; cbn; split; try discriminate;
      intros [= E]; now apply DecimalPos.Unsigned.to_uint_nonnil in E. }
  pose proof (NilZero.isi (Z.to_int a) (proj1 (Hnil a)) (proj2 (Hnil a))) as Ea.
  pose proof (NilZero.isi (Z.to_int b) (proj1 (Hnil b)) (proj2 (Hnil b))) as Eb.
  rewrite H in Ea. congruence.
Qed.

(** A line of the form [<prefix><status> - <body>] gives back its status
    and its body. *)
Lemma status_line_inj (prefix : string) (s1 s2 : Z) (b1 b2 : string) :
  prefix ++ str_of_int s1 ++ " - " ++ b1 = prefix ++ str_of_int s2 ++ " - " ++ b2 ->
  s1 = s2 /\ b1 = b2.
Proof.
  intros H. apply app_inv_head_str in H.
  apply split_at_space in H; try apply str_of_int_no_space.
  destruct H as [Hs Hb]. apply str_of_int_inj in Hs.
  now injection Hb as ->.
Qed.

End ReportFacts.

(* ------------------------------------------------------------------ *)
(** ** The secret updater: reports, the missing library, the entry point *)

Module UpdateSecretBehaviour.
Import Json Py PyStr UpdateSecret Runs UpdateSecretProofs UpdateSecretProperties.
Import ReportFacts.

#[local] Arguments msg_get_failed : simpl never.
#[local] Arguments msg_put_failed : simpl never.
#[local] Arguments msg_put_ok : simpl never.
#[local] Arguments msg_request_error : simpl never.
#[local] Arguments msg_missing_key : simpl never.
#[local] Arguments msg_unexpected : simpl never.
#[local] Arguments pub_key_url : simpl never.
#[local] Arguments secret_url : simpl never.
#[local] Arguments request_headers : simpl never.
#[local] Arguments make_payload : simpl never.
#[local] Arguments isinstance : simpl never.
#[local] Arguments getitem : simpl never.
#[local] Arguments b64decode : simpl never.
#[local] Arguments seal_with : simpl never.
#[local] Arguments str_of_int : simpl never.

(** A line that a short trace does not hold. *)
Ltac not_in_trace :=
  let H := fresh "H" in
  intros H; cbn in H;
  repeat (destruct H as [H|H]; [discriminate H|]);
  first [contradiction | discriminate H].

(** The run after a key fetch that answered 200 with both fields, when
    PyNaCl cannot be imported. *)
Lemma run_without_nacl
      (w : World) (tok owner repo name value : string)
      (r : Response) (v key_id public_key : Json.t) (e : exc) :
  requests_get w (pub_key_url owner repo) (request_headers tok) = Returned r ->
  status_code r = 200 ->
  json r = Returned v ->
  getitem v "key_id" = Returned key_id ->
  getitem v "key" = Returned public_key ->
  import_nacl w = Raised e ->
  isinstance e ImportError = true ->
  update_secret w tok owner repo name value
  = match requests_put w (secret_url owner repo name) (request_headers tok)
                       (make_payload value key_id) with
    | Returned pr =>
        if (status_code pr =? 201) || (status_code pr =? 204)
        then ([EvGet (pub_key_url owner repo) (request_headers tok);
               EvPrint msg_nacl_missing;
               EvPut (secret_url owner repo name) (request_headers tok)
                     (make_payload value key_id);
               EvPrint (msg_put_ok name)],
              Returned true)
        else ([EvGet (pub_key_url owner repo) (request_headers tok);
               EvPrint msg_nacl_missing;
               EvPut (secret_url owner repo name) (request_headers tok)
                     (make_payload value key_id);
               EvPrint (msg_put_failed (status_code pr) (text pr));
               EvPrint msg_put_hint],
              Returned false)
    | Raised e' =>
        try_except
          ([EvGet (pub_key_url owner repo) (request_headers tok);
            EvPrint msg_nacl_missing;
            EvPut (secret_url owner repo name) (request_headers tok)
                  (make_payload value key_id)],
           Raised e')
          update_secret_handlers
    end.
Proof.
  intros Hget Hstatus Hjson Hkid Hpk Himport He.
  unfold update_secret at 1, update_secret_body, http_get, http_put. cbn.
  rewrite Hget. cbn. rewrite Hstatus. cbn. rewrite Hjson. cbn.
  rewrite Hkid. cbn. rewrite Hpk. cbn. rewrite Himport. cbn. rewrite He. cbn.
  destruct (requests_put _ _ _ _) as [pr|e']; cbn; [|reflexivity].
  now destruct ((status_code pr =? 201) || (status_code pr =? 204)).
Qed.

(** Without the key material no run gets as far as the import: it issues
    no PUT, prints no warning and does not return [True]. *)
Lemma run_without_key_material
      (w : World) (tok owner repo name value : string) :
  (~ exists r v key_id public_key,
        requests_get w (pub_key_url owner repo) (request_headers tok) = Returned r
        /\ status_code r = 200
        /\ json r = Returned v
        /\ getitem v "key_id" = Returned key_id
        /\ getitem v "key" = Returned public_key) ->
  puts (fst (update_secret w tok owner repo name value)) = []
  /\ ~ In (EvPrint "⚠️ PyNaCl not available, using original encrypted value")
          (fst (update_secret w tok owner repo name value))
  /\ snd (update_secret w tok owner repo name value) <> Returned true.
Proof.
  intros Hnone.
  assert (Hgot : forall r v key_id public_key,
             requests_get w (pub_key_url owner repo) (request_headers tok)
             = Returned r ->
             negb (status_code r =? 200) = false ->
             json r = Returned v ->
             getitem v "key_id" = Returned key_id ->
             getitem v "key" = Returned public_key -> False).
  { intros r v key_id public_key H1 H2 H3 H4 H5. apply Hnone.
    apply negb_false_iff, Z.eqb_eq in H2.
    now exists r, v, key_id, public_key. }
  clear Hnone.
  unfold update_secret, update_secret_handlers, update_secret_body, http_get.
  cbn.
  destruct (requests_get _ _ _) as [r|e0] eqn:E0; cbn.
  - destruct (negb (status_code r =? 200)) eqn:Hs; cbn.
    + repeat split; try discriminate.
      not_in_trace.
    + destruct (json r) as [v|e1] eqn:E1; cbn.
      * destruct (getitem v "key_id") as [kid|e2] eqn:E2; cbn.
        -- destruct (getitem v "key") as [pk|e3] eqn:E3; cbn.
           ++ exfalso. exact (Hgot r v kid pk eq_refl Hs E1 E2 E3).
           ++ world_cases; repeat split; try discriminate;
                not_in_trace.
        -- world_cases; repeat split; try discriminate;
             not_in_trace.
      * world_cases; repeat split; try discriminate;
          not_in_trace.
  - world_cases; repeat split; try discriminate;
      not_in_trace.
Qed.

(** C1, as the code has it.  When PyNaCl cannot be imported:
    - if the key fetch answered 200 with a JSON body that has [key_id] and
      [key], [update_secret] prints the warning, issues the PUT with the
      original value as [encrypted_value], returns [True] exactly when the
      PUT answers 201 or 204, and [False] when the PUT raises an instance of
      [Exception];
    - otherwise it issues no PUT, prints no warning and does not return
      [True] (it returns [False] in a world that raises only instances of
      [Exception]), as the claim says;
    - [encrypt_secret_with_public_key] prints the warning and returns the
      original value.
    No kind of failure is computed anywhere. *)
Theorem missing_nacl_forwards_value
        (w : World) (tok owner repo name value : string) (e : exc) :
  import_nacl w = Raised e ->
  isinstance e ImportError = true ->
  (forall r v key_id public_key,
      requests_get w (pub_key_url owner repo) (request_headers tok) = Returned r ->
      status_code r = 200 ->
      json r = Returned v ->
      getitem v "key_id" = Returned key_id ->
      getitem v "key" = Returned public_key ->
      (exists rest,
          fst (update_secret w tok owner repo name value)
          = [EvGet (pub_key_url owner repo) (request_headers tok);
             EvPrint "⚠️ PyNaCl not available, using original encrypted value";
             EvPut (secret_url owner repo name) (request_headers tok)
                   (JDict [("encrypted_value", JStr value); ("key_id", key_id)])]
              ++ rest)%list
      /\ (forall pr,
             requests_put w (secret_url owner repo name) (request_headers tok)
                          (JDict [("encrypted_value", JStr value);
                                  ("key_id", key_id)])
             = Returned pr ->
             snd (update_secret w tok owner repo name value)
             = Returned ((status_code pr =? 201) || (status_code pr =? 204)))
      /\ (forall e',
             requests_put w (secret_url owner repo name) (request_headers tok)
                          (JDict [("encrypted_value", JStr value);
                                  ("key_id", key_id)])
             = Raised e' ->
             isinstance e' Exception = true ->
             snd (update_secret w tok owner repo name value) = Returned false))
  /\
  ((~ exists r v key_id public_key,
         requests_get w (pub_key_url owner repo) (request_headers tok) = Returned r
         /\ status_code r = 200
         /\ json r = Returned v
         /\ getitem v "key_id" = Returned key_id
         /\ getitem v "key" = Returned public_key) ->
   puts (fst (update_secret w tok owner repo name value)) = []
   /\ ~ In (EvPrint "⚠️ PyNaCl not available, using original encrypted value")
           (fst (update_secret w tok owner repo name value))
   /\ snd (update_secret w tok owner repo name value) <> Returned true
   /\ (raises_only_exceptions w ->
       snd (update_secret w tok owner repo name value) = Returned false))
  /\
  (forall public_key_raw,
      encrypt_secret_with_public_key w value public_key_raw
      = ([EvPrint "⚠️ PyNaCl not available, using original encrypted value"],
         Returned value)).
Proof.
  intros Himport He. split; [|split].
  - intros r v key_id public_key Hget Hstatus Hjson Hkid Hpk.
    rewrite (run_without_nacl w tok owner repo name value r v key_id public_key e
               Hget Hstatus Hjson Hkid Hpk Himport He).
    change (JDict [("encrypted_value", JStr value); ("key_id", key_id)])
      with (make_payload value key_id).
    split; [|split].
    + destruct (requests_put _ _ _ _) as [pr|e'].
      * destruct ((status_code pr =? 201) || (status_code pr =? 204));
          eexists; reflexivity.
      * rewrite handlers_catch.
        destruct (isinstance e' RequestException);
          [|destruct (isinstance e' KeyError);
            [|destruct (isinstance e' Exception)]];
          eexists; cbn; reflexivity.
    + intros pr ->.
      now destruct ((status_code pr =? 201) || (status_code pr =? 204)).
    + intros e' -> He'. now apply handlers_false.
  - intros Hnone.
    destruct (run_without_key_material w tok owner repo name value Hnone)
      as (Hputs & Hwarn & Hnot).
    repeat split; auto.
    intros Hw.
    destruct (handlers_total _ (update_secret_body_benign
                                  w tok owner repo name value Hw)) as [b Hb].
    fold (update_secret w tok owner repo name value) in Hb.
    rewrite Hb in *. destruct b; [now elim Hnot|reflexivity].
  - intros public_key_raw. unfold encrypt_secret_with_public_key.
    rewrite Himport. cbn. now rewrite He.
Qed.

Lemma missing_nacl_forwards_value_witness :
  snd (update_secret Scenarios.world_no_nacl
                     "ghs_token" "89pl" "strix" "QWEN_TOKENS" "rotated-token-xyz")
  = Returned true.
Proof.
  refine (proj1 (proj2 (proj1 (missing_nacl_forwards_value
                                 Scenarios.world_no_nacl
                                 "ghs_token" "89pl" "strix" "QWEN_TOKENS"
                                 "rotated-token-xyz" _ eq_refl eq_refl)
                              Scenarios.key_response _ (JStr "42")
                              (JStr Scenarios.sample_key)
                              eq_refl eq_refl eq_refl eq_refl eq_refl))
                (Scenarios.response 204 "" JNull) eq_refl).
Defined.

(** The shape of a run whose PUT was answered with a status that is not
    201 or 204. *)
Lemma run_put_refused
      (w : World) (tok owner repo name value : string)
      (url : string) (h : headers) (body : Json.t) (pr : Response) :
  In (EvPut url h body) (fst (update_secret w tok owner repo name value)) ->
  requests_put w url h body = Returned pr ->
  (status_code pr =? 201) || (status_code pr =? 204) = false ->
  exists before,
    update_secret w tok owner repo name value
    = ((EvGet (pub_key_url owner repo) (request_headers tok) :: before)
         ++ [EvPut url h body;
             EvPrint (msg_put_failed (status_code pr) (text pr));
             EvPrint msg_put_hint],
       Returned false)%list
    /\ (before = [] \/ before = [EvPrint msg_nacl_missing]).
Proof.
  remember (update_secret w tok owner repo name value) as run eqn:Hrun.
  intros Hin Hput Hbad. revert Hrun. unfold_run. world_cases; intros ->;
    cbn in Hin; trace_cases;
    match goal with
    | E : requests_put _ _ _ _ = _ |- _ =>
        rewrite Hput in E; try discriminate E; injection E as <-
    end;
    try congruence;
    first [ exists []; split; [reflexivity|now left]
          | exists [EvPrint msg_nacl_missing]; split; [reflexivity|now right] ].
Qed.

(** C2: when the PUT of a run completes with an HTTP status,
    [update_secret] returns [True] if and only if the status is 201 or 204;
    with any other status it returns [False] and prints the line
    [Failed to update secret: <status> - <body>] with the status code and
    the body of that response, and no such line with another status or
    body. *)
Theorem submission_status_decides
        (w : World) (tok owner repo name value : string)
        (url : string) (h : headers) (body : Json.t) (pr : Response) :
  In (EvPut url h body) (fst (update_secret w tok owner repo name value)) ->
  requests_put w url h body = Returned pr ->
  (snd (update_secret w tok owner repo name value) = Returned true
   <-> status_code pr = 201 \/ status_code pr = 204)
  /\
  (~ (status_code pr = 201 \/ status_code pr = 204) ->
   snd (update_secret w tok owner repo name value) = Returned false
   /\ In (EvPrint ("❌ Failed to update secret: "
                     ++ str_of_int (status_code pr) ++ " - " ++ text pr))
         (fst (update_secret w tok owner repo name value))
   /\ (forall status body',
          In (EvPrint ("❌ Failed to update secret: "
                         ++ str_of_int status ++ " - " ++ body'))
             (fst (update_secret w tok owner repo name value)) ->
          status = status_code pr /\ body' = text pr)).
Proof.
  intros Hin Hput. split.
  - remember (update_secret w tok owner repo name value) as run eqn:Hrun.
    revert Hrun. unfold_run. world_cases; intros ->;
      cbn in Hin; trace_cases;
      match goal with
      | E : requests_put _ _ _ _ = _ |- _ =>
          rewrite Hput in E; try discriminate E; injection E as <-
      end;
      match goal with
      | E : (_ || _) = _ |- _ =>
          rewrite ?orb_true_iff, ?orb_false_iff, ?Z.eqb_eq, ?Z.eqb_neq in E
      end;
      cbn; intuition (try discriminate; try congruence).
  - intros Hbad.
    assert (Hb : (status_code pr =? 201) || (status_code pr =? 204) = false).
    { apply orb_false_iff. rewrite !Z.eqb_neq. tauto. }
    destruct (run_put_refused _ _ _ _ _ _ _ _ _ _ Hin Hput Hb)
      as (before & -> & Hbefore).
    cbn [fst snd]. split; [reflexivity|]. split.
    + apply in_or_app. right. right. left. reflexivity.
    + intros status body' Hline.
      cbn in Hline. destruct Hline as [Hline|Hline]; [discriminate Hline|].
      apply in_app_or in Hline. destruct Hline as [Hline|Hline].
      * destruct Hbefore as [-> | ->]; cbn in Hline.
        -- contradiction.
        -- destruct Hline as [Hline|[]]. discriminate Hline.
      * cbn in Hline. destruct Hline as [Hline|[Hline|[Hline|[]]]].
        -- discriminate Hline.
        -- injection Hline as Hline.
           apply split_at_space in Hline; try apply str_of_int_no_space.
           destruct Hline as [Hs Htext]. apply str_of_int_inj in Hs.
           injection Htext as ->. now split.
        -- discriminate Hline.
Qed.

Lemma submission_status_witness :
  snd (update_secret (Scenarios.world_put_status 403 "Forbidden")
                     "ghs_token" "89pl" "strix" "QWEN_TOKENS" "rotated-token-xyz")
  = Returned false
  /\ In (EvPrint "❌ Failed to update secret: 403 - Forbidden")
        (fst (update_secret (Scenarios.world_put_status 403 "Forbidden")
                            "ghs_token" "89pl" "strix" "QWEN_TOKENS"
                            "rotated-token-xyz")).
Proof.
  destruct (submission_status_decides
              (Scenarios.world_put_status 403 "Forbidden")
              "ghs_token" "89pl" "strix" "QWEN_TOKENS" "rotated-token-xyz"
              (secret_url "89pl" "strix" "QWEN_TOKENS")
              (request_headers "ghs_token")
              (make_payload
                 (string_of_list_byte
                    (list_byte_of_string Scenarios.sample_key
                       ++ list_byte_of_string "rotated-token-xyz"))
                 (JStr "42"))
              (Scenarios.response 403 "Forbidden" JNull))
    as [_ H].
  - right. left. reflexivity.
  - reflexivity.
  - destruct H as (Hfalse & Hline & _).
    + cbn. intros [H|H]; discriminate H.
    + split; [exact Hfalse|exact Hline].
Defined.



(** C8: [main] wants exactly five values after the program name.  With
    any other count it prints the usage line, which names the five values,
    and exits with status 1; with five it runs [update_secret] on them, does
    nothing else, and exits with status 0 when that returned [True] and 1
    when it returned [False]. *)
Theorem main_exit_status (w : World) (argv : list string) :
  (List.length argv <> 6%nat ->
   fst (main w argv)
   = [EvPrint "Usage: python -m strix.runtime.remote_tool_server.update_secret <server_token> <owner> <repo> <secret_name> <secret_value>"]
   /\ exit_status (snd (main w argv)) = Some 1)
  /\
  (forall prog tok owner repo name value,
      argv = [prog; tok; owner; repo; name; value] ->
      fst (main w argv) = fst (update_secret w tok owner repo name value)
      /\ (snd (update_secret w tok owner repo name value) = Returned true ->
          exit_status (snd (main w argv)) = Some 0)
      /\ (snd (update_secret w tok owner repo name value) = Returned false ->
          exit_status (snd (main w argv)) = Some 1)).
Proof.
  split.
  - intros Hlen. apply Nat.eqb_neq in Hlen. unfold main. rewrite Hlen.
    split; reflexivity.
  - intros prog tok owner repo name value ->. unfold main. cbn.
    destruct (update_secret w tok owner repo name value) as [tr [b|e]]; cbn.
    + rewrite app_nil_r. repeat split; intros [= ->]; reflexivity.
    + repeat split; discriminate.
Qed.

Lemma main_exit_status_witness :
  exit_status
    (snd (main Scenarios.world_updated
               ["update_secret.py"; "ghs_token"; "89pl"; "strix"; "QWEN_TOKENS";
                "rotated-token-xyz"]))
  = Some 0
  /\ exit_status (snd (main Scenarios.world_updated ["update_secret.py"]))
     = Some 1.
Proof.
  split.
  - refine (proj1 (proj2 (proj2 (main_exit_status Scenarios.world_updated _)
                                _ _ _ _ _ _ eq_refl)) eq_refl).
  - refine (proj2 (proj1 (main_exit_status Scenarios.world_updated _) _)).
    discriminate.
Defined.

(** C5, as the code has it: when the key fetch answers 200 with a JSON
    body that lacks [key_id] or [key], [update_secret] does not crash,
    returns [False] and attempts no PUT.  It computes no kind of error: for
    a JSON object the [except KeyError] clause prints
    [Missing key in response:] with the first missing field between quotes;
    for any other JSON value (a list, a string, a number, a boolean, null)
    the catch-all clause prints [Unexpected error:] with the message of the
    [TypeError] of the subscript. *)
Theorem missing_key_is_reported
        (w : World) (tok owner repo name value : string)
        (r : Response) (v : Json.t) :
  requests_get w (pub_key_url owner repo) (request_headers tok) = Returned r ->
  status_code r = 200 ->
  json r = Returned v ->
  has_field v "key_id" = false \/ has_field v "key" = false ->
  snd (update_secret w tok owner repo name value) = Returned false
  /\ puts (fst (update_secret w tok owner repo name value)) = []
  /\ (forall d, v = JDict d ->
        fst (update_secret w tok owner repo name value)
        = [EvGet (pub_key_url owner repo) (request_headers tok);
           EvPrint ("❌ Missing key in response: '"
                      ++ (if has_field v "key_id" then "key" else "key_id")
                      ++ "'")])
  /\ ((forall d, v <> JDict d) ->
      fst (update_secret w tok owner repo name value)
      = [EvGet (pub_key_url owner repo) (request_headers tok);
         EvPrint ("❌ Unexpected error: "
                    ++ match v with
                       | JList _ =>
                           "list indices must be integers or slices, not str"
                       | JStr _ => "string indices must be integers, not 'str'"
                       | _ => "'" ++ type_name v ++ "' object is not subscriptable"
                       end)]).
Proof.
  intros Hget Hstatus Hjson Hmissing.
  unfold update_secret, update_secret_handlers, update_secret_body, http_get.
  cbn. rewrite Hget. cbn. rewrite Hstatus. cbn. rewrite Hjson. cbn.
  unfold getitem, has_field in *.
  destruct v as [|b|n|f|s|l|d];
    try (repeat split; try reflexivity; intros d Hd; discriminate Hd).
  destruct (lookup "key_id" d) as [kid|] eqn:E1; cbn.
  - destruct (lookup "key" d) as [pk|] eqn:E2; cbn.
    + destruct Hmissing; discriminate.
    + repeat split; try reflexivity. intros H. now elim (H d).
  - repeat split; try reflexivity. intros H. now elim (H d).
Qed.

Lemma missing_key_witness :
  snd (update_secret Scenarios.world_missing_key
                     "ghs_token" "89pl" "strix" "QWEN_TOKENS" "rotated-token-xyz")
  = Returned false
  /\ fst (update_secret Scenarios.world_missing_key
                        "ghs_token" "89pl" "strix" "QWEN_TOKENS"
                        "rotated-token-xyz")
     = [EvGet (pub_key_url "89pl" "strix") (request_headers "ghs_token");
        EvPrint "❌ Missing key in response: 'key'"].
Proof.
  destruct (missing_key_is_reported
              Scenarios.world_missing_key
              "ghs_token" "89pl" "strix" "QWEN_TOKENS" "rotated-token-xyz"
              (Scenarios.response 200 ("{" ++ Scenarios.quoted "key_id" ++ ": "
                                           ++ Scenarios.quoted "42" ++ "}")
                                  (JDict [("key_id", JStr "42")]))
              (JDict [("key_id", JStr "42")])
              eq_refl eq_refl eq_refl (or_intror eq_refl))
    as (Hfalse & _ & Hdict & _).
  split; [exact Hfalse|].
  exact (Hdict _ eq_refl).
Defined.

(** C5 as stated fails: a 200 answer whose body is the JSON [null] lacks
    [key_id], and its run is reported by the catch-all clause, line for
    line as the run of a complete answer in which the library fails with
    the same [TypeError]; nothing computed from the run tells the malformed
    answer from the other failure. *)
Lemma null_body_is_an_unexpected_error :
  has_field JNull "key_id" = false
  /\ update_secret
       (Scenarios.world (Returned (Scenarios.response 200 "null" JNull))
                        (Returned Scenarios.sample_nacl)
                        (Returned (Scenarios.response 204 "" JNull)))
       "ghs_token" "89pl" "strix" "QWEN_TOKENS" "rotated-token-xyz"
     = ([EvGet (pub_key_url "89pl" "strix") (request_headers "ghs_token");
         EvPrint "❌ Unexpected error: 'NoneType' object is not subscriptable"],
        Returned false)
  /\ update_secret
       (Scenarios.world
          (Returned Scenarios.key_response)
          (Returned
             {| PublicKey := fun bs => Returned bs;
                SealedBox_encrypt := fun _ _ =>
                  Raised (TypeError_ "'NoneType' object is not subscriptable") |})
          (Returned (Scenarios.response 204 "" JNull)))
       "ghs_token" "89pl" "strix" "QWEN_TOKENS" "rotated-token-xyz"
     = update_secret
         (Scenarios.world (Returned (Scenarios.response 200 "null" JNull))
                          (Returned Scenarios.sample_nacl)
                          (Returned (Scenarios.response 204 "" JNull)))
         "ghs_token" "89pl" "strix" "QWEN_TOKENS" "rotated-token-xyz"
  /\ ~ (exists classify : M bool -> Spec.failure_kind,
           classify
             (update_secret
                (Scenarios.world (Returned (Scenarios.response 200 "null" JNull))
                                 (Returned Scenarios.sample_nacl)
                                 (Returned (Scenarios.response 204 "" JNull)))
                "ghs_token" "89pl" "strix" "QWEN_TOKENS" "rotated-token-xyz")
           = Spec.ProtocolError
           /\ classify
                (update_secret
                   (Scenarios.world
                      (Returned Scenarios.key_response)
                      (Returned
                         {| PublicKey := fun bs => Returned bs;
                            SealedBox_encrypt := fun _ _ =>
                              Raised (TypeError_
                                        "'NoneType' object is not subscriptable") |})
                      (Returned (Scenarios.response 204 "" JNull)))
                   "ghs_token" "89pl" "strix" "QWEN_TOKENS" "rotated-token-xyz")
              <> Spec.ProtocolError).
Proof.
  split; [reflexivity|]. split; [reflexivity|]. split; [reflexivity|].
  intros (classify & Hnull & Hother). apply Hother. exact Hnull.
Qed.




(** C7, as the code has it, for two calls of
    [encrypt_secret_with_public_key] on the same value and key, each in its
    own world.  When PyNaCl cannot be imported in either, both calls return
    the value itself, so the two results are equal.  When PyNaCl is there
    and both calls succeed, each result is the base64 text of what
    [SealedBox.encrypt] returned to that call, so, base64 being one-to-one,
    the results differ exactly when those two ciphertexts differ: the
    difference is the library's, the code adds none. *)
Theorem sealing_twice
        (w1 w2 : World) (secret_value public_key_raw : string) :
  (forall e1 e2,
      import_nacl w1 = Raised e1 -> isinstance e1 ImportError = true ->
      import_nacl w2 = Raised e2 -> isinstance e2 ImportError = true ->
      snd (encrypt_secret_with_public_key w1 secret_value public_key_raw)
      = Returned secret_value
      /\ snd (encrypt_secret_with_public_key w2 secret_value public_key_raw)
         = Returned secret_value)
  /\
  (forall nacl1 nacl2 bs1 bs2 pk1 pk2 ct1 ct2,
      import_nacl w1 = Returned nacl1 ->
      base64_b64decode w1 public_key_raw = Returned bs1 ->
      PublicKey nacl1 bs1 = Returned pk1 ->
      SealedBox_encrypt nacl1 pk1 (list_byte_of_string secret_value)
      = Returned ct1 ->
      import_nacl w2 = Returned nacl2 ->
      base64_b64decode w2 public_key_raw = Returned bs2 ->
      PublicKey nacl2 bs2 = Returned pk2 ->
      SealedBox_encrypt nacl2 pk2 (list_byte_of_string secret_value)
      = Returned ct2 ->
      snd (encrypt_secret_with_public_key w1 secret_value public_key_raw)
      = Returned (base64_b64encode w1 ct1)
      /\ snd (encrypt_secret_with_public_key w2 secret_value public_key_raw)
         = Returned (base64_b64encode w2 ct2)
      /\ ((forall a b, base64_b64encode w1 a = base64_b64encode w2 b <-> a = b) ->
          (snd (encrypt_secret_with_public_key w1 secret_value public_key_raw)
           <> snd (encrypt_secret_with_public_key w2 secret_value public_key_raw)
           <-> ct1 <> ct2))).
Proof.
  split.
  - intros e1 e2 H1 He1 H2 He2. unfold encrypt_secret_with_public_key.
    rewrite H1, H2. cbn. now rewrite He1, He2.
  - intros nacl1 nacl2 bs1 bs2 pk1 pk2 ct1 ct2
           Hn1 Hb1 Hp1 Hc1 Hn2 Hb2 Hp2 Hc2.
    assert (E1 : snd (encrypt_secret_with_public_key w1 secret_value
                                                     public_key_raw)
                 = Returned (base64_b64encode w1 ct1)).
    { unfold encrypt_secret_with_public_key, seal_with, b64decode. cbn.
      rewrite Hn1. cbn. rewrite Hb1. cbn. rewrite Hp1. cbn. now rewrite Hc1. }
    assert (E2 : snd (encrypt_secret_with_public_key w2 secret_value
                                                     public_key_raw)
                 = Returned (base64_b64encode w2 ct2)).
    { unfold encrypt_secret_with_public_key, seal_with, b64decode. cbn.
      rewrite Hn2. cbn. rewrite Hb2. cbn. rewrite Hp2. cbn. now rewrite Hc2. }
    rewrite E1, E2. split; [reflexivity|]. split; [reflexivity|].
    intros Hinj. split.
    + intros Hdiff Heq. apply Hdiff. f_equal. now apply Hinj.
    + intros Hdiff [= Heq]. apply Hdiff. now apply Hinj.
Qed.

Lemma sealing_twice_witness :
  snd (encrypt_secret_with_public_key
         Scenarios.world_updated "rotated-token-xyz" Scenarios.sample_key)
  <> snd (encrypt_secret_with_public_key
            (Scenarios.world
               (Returned Scenarios.key_response)
               (Returned
                  {| PublicKey := PublicKey Scenarios.sample_nacl;
                     SealedBox_encrypt := fun pk pt => Returned (pt ++ pk)%list |})
               (Returned (Scenarios.response 204 "" JNull)))
            "rotated-token-xyz" Scenarios.sample_key).
Proof.
  refine (proj2 (proj2 (proj2 (proj2 (sealing_twice
                                        Scenarios.world_updated
                                        (Scenarios.world
                                           (Returned Scenarios.key_response)
                                           (Returned
                                              {| PublicKey :=
                                                   PublicKey Scenarios.sample_nacl;
                                                 SealedBox_encrypt :=
                                                   fun pk pt =>
                                                     Returned (pt ++ pk)%list |})
                                           (Returned
                                              (Scenarios.response 204 "" JNull)))
                                        "rotated-token-xyz"
                                        Scenarios.sample_key)
                                     _ _ _ _ _ _ _ _
                                     eq_refl eq_refl eq_refl eq_refl
                                     eq_refl eq_refl eq_refl eq_refl))
                       _) _).
  - intros a b. cbn. split; [|now intros ->].
    intros H. apply (f_equal list_byte_of_string) in H.
    now rewrite !list_byte_of_string_of_list_byte in H.
  - discriminate.
Defined.

(** C7 as stated fails: without PyNaCl two calls on the same value and key
    return the same text, the value itself. *)
Lemma sealing_twice_without_nacl :
  import_nacl Scenarios.world_no_nacl
  = Raised (ModuleNotFoundError_ "No module named 'nacl'")
  /\ snd (encrypt_secret_with_public_key
            Scenarios.world_no_nacl "rotated-token-xyz" Scenarios.sample_key)
     = Returned "rotated-token-xyz"
  /\ snd (encrypt_secret_with_public_key
            (Scenarios.world (Returned Scenarios.key_response) Scenarios.no_nacl
                             (Returned (Scenarios.response 201 "" JNull)))
            "rotated-token-xyz" Scenarios.sample_key)
     = snd (encrypt_secret_with_public_key
              Scenarios.world_no_nacl "rotated-token-xyz" Scenarios.sample_key).
Proof.
  repeat split.
Qed.

End UpdateSecretBehaviour.
